(** * KnnFaiss: the nearest-neighbour adapter of Open3D/Geometry/KnnFaiss.cpp

    A shallow embedding of the adapter class [open3d::geometry::KnnFaiss]
    and the properties of its ingestion and search entry points.

    The adapter owns a flat [std::vector<float>] ([data_]), two [size_t]
    shape fields ([dimension_], [dataset_size_]) and a handle on an external
    flat L2 index ([index]).  Numbers are modelled by their machine
    representation: a [double] is its 64-bit IEEE-754 pattern, a [float] its
    32-bit pattern, memory is little-endian bytes.  The external index is an
    interface ([FlatIndex]); a reference exhaustive implementation of it is
    given for closed examples. *)

From Stdlib Require Import String ZArith List Bool Lia.
From Stdlib Require Import Floats.SpecFloat.
Import ListNotations.
Open Scope Z_scope.

(** ** Machine numbers *)

(** 64-bit IEEE-754 pattern of a C++ [double]. *)
Definition double := Z.
(** 32-bit IEEE-754 pattern of a C++ [float]. *)
Definition float := Z.
(** An octet of memory, [0 <= b < 256]. *)
Definition byte := Z.

(** [size_t(x)] on a 64-bit target: conversion wraps modulo 2^64. *)
Definition size_t (x : Z) : Z := x mod 2 ^ 64.

(** [sizeof(float)]. *)
Definition sizeof_float : Z := 4.

Module IEEE.

(** Decoding of a pattern with [mw] explicit mantissa bits and [ew]
    exponent bits. *)
Definition of_bits (mw ew : Z) (b : Z) : spec_float :=
  let s := Z.testbit b (mw + ew) in
  let e := Z.land (Z.shiftr b mw) (2 ^ ew - 1) in
  let m := Z.land b (2 ^ mw - 1) in
  let bias := 2 ^ (ew - 1) - 1 in
  if e =? 0 then
    match m with
    | Zpos p => S754_finite s p (1 - bias - mw)
    | _ => S754_zero s
    end
  else if e =? 2 ^ ew - 1 then
    if m =? 0 then S754_infinity s else S754_nan
  else
    match m + 2 ^ mw with
    | Zpos p => S754_finite s p (e - bias - mw)
    | _ => S754_nan
    end.

(** Encoding; NaN is encoded as the default quiet NaN. *)
Definition to_bits (mw ew : Z) (x : spec_float) : Z :=
  let bias := 2 ^ (ew - 1) - 1 in
  let sign (s : bool) := if s then 2 ^ (mw + ew) else 0 in
  match x with
  | S754_zero s => sign s
  | S754_infinity s => sign s + (2 ^ ew - 1) * 2 ^ mw
  | S754_nan => (2 ^ ew - 1) * 2 ^ mw + 2 ^ (mw - 1)
  | S754_finite s m e =>
      sign s +
      (if 2 ^ mw <=? Zpos m
       then (e + bias + mw) * 2 ^ mw + (Zpos m - 2 ^ mw)
       else Zpos m)
  end.

Definition of_double : double -> spec_float := of_bits 52 11.
Definition of_float : float -> spec_float := of_bits 23 8.
Definition to_float : spec_float -> float := to_bits 23 8.

(** Rounding to binary32 (24 bits of precision, infinities at 2^128),
    to nearest, ties to even. *)
Definition round32 (x : spec_float) : spec_float :=
  match x with
  | S754_finite s m e => binary_round 24 128 s m e
  | _ => x
  end.

Definition fadd (a b : float) : float :=
  to_float (SFadd 24 128 (of_float a) (of_float b)).
Definition fsub (a b : float) : float :=
  to_float (SFsub 24 128 (of_float a) (of_float b)).
Definition fmul (a b : float) : float :=
  to_float (SFmul 24 128 (of_float a) (of_float b)).
Definition fltb (a b : float) : bool :=
  SFltb (of_float a) (of_float b).

End IEEE.

(** The value conversion [double -> float] of C++ ([static_cast<float>],
    and the implicit conversion of a [double] argument to a [float]
    parameter). *)
Definition double_to_float (x : double) : float :=
  IEEE.to_float (IEEE.round32 (IEEE.of_double x)).

(** ** Memory representation *)

(** The [n] little-endian bytes of [v]. *)
Fixpoint le_bytes (n : nat) (v : Z) : list byte :=
  match n with
  | O => []
  | S k => v mod 256 :: le_bytes k (v / 256)
  end.

(** The value of a little-endian byte string. *)
Fixpoint le_value (bs : list byte) : Z :=
  match bs with
  | [] => 0
  | b :: r => b + 256 * le_value r
  end.

(** Object representation of an array of [double] (8 bytes each). *)
Definition bytes_of_doubles (l : list double) : list byte :=
  flat_map (le_bytes 8) l.

(** Object representation of an array of [float] (4 bytes each). *)
Definition bytes_of_floats (l : list float) : list byte :=
  flat_map (le_bytes 4) l.

(** Reading memory as an array of [float]: complete groups of 4 bytes. *)
Fixpoint floats_of_bytes (bs : list byte) : list float :=
  match bs with
  | b0 :: b1 :: b2 :: b3 :: r => le_value [b0; b1; b2; b3] :: floats_of_bytes r
  | _ => []
  end.

(** [memcpy(dst, src, count)]: the first [count] bytes of [dst] are replaced
    by the first [count] bytes of [src]. *)
Definition memcpy (dst src : list byte) (count : Z) : list byte :=
  firstn (Z.to_nat count) src ++ skipn (Z.to_nat count) dst.

(** [std::vector<float>::resize(n)]: keeps the first [n] elements and
    value-initialises (0.0f, pattern 0) the new ones. *)
Definition resize (n : Z) (v : list float) : list float :=
  firstn (Z.to_nat n) v ++ repeat 0 (Z.to_nat n - length v).

(** ** Eigen and Open3D data *)

(** A dense column-major matrix of [double] as seen through
    [Eigen::Map<const Eigen::MatrixXd>]: [rows()], [cols()] and the storage
    behind [data()].  The query types [Eigen::Vector3d] and
    [Eigen::VectorXd] are the one-column case. *)
Record MatrixXd : Type := mkMatrix {
  rows : Z;
  cols : Z;
  data : list double
}.

(** [Eigen::Index] is a signed 64-bit integer and the storage holds
    [rows * cols] coefficients, which fit the address space. *)
Definition wf_matrix (m : MatrixXd) : Prop :=
  0 <= rows m < 2 ^ 63 /\ 0 <= cols m < 2 ^ 63 /\
  Z.of_nat (length (data m)) = rows m * cols m /\
  8 * (rows m * cols m) < 2 ^ 64.

(** Column [i] of [m], as a one-column query. *)
Definition col (m : MatrixXd) (i : Z) : MatrixXd :=
  mkMatrix (rows m) 1
           (firstn (Z.to_nat (rows m)) (skipn (Z.to_nat (i * rows m)) (data m))).

Definition Vector3d : Type := double * double * double.

(** The storage behind [std::vector<Eigen::Vector3d>::data()] read as
    [const double *]. *)
Definition doubles_of_points (ps : list Vector3d) : list double :=
  flat_map (fun '(x, y, z) => [x; y; z]) ps.

(** Modelled from the spec: [Geometry::GeometryType] is declared in
    Geometry.h, which is not among the sources.  The enumerators are those
    the switch of [SetGeometry] names (the supported set of the spec, and
    [Image] and [Unspecified]); every other value of the enumeration is an
    [OtherGeometryType] and takes the [default] branch. *)
Inductive GeometryType : Type :=
| Unspecified
| PointCloud
| TriangleMesh
| HalfEdgeTriangleMesh
| Image
| OtherGeometryType (tag : Z).

(** Modelled from the spec: the geometry classes are declared in headers
    that are not among the sources.  A geometry object is its type tag and
    the 3-D positions the adapter reads after the downcast
    ([PointCloud::points_], [TriangleMesh::vertices_]). *)
Record Geometry : Type := mkGeometry {
  GetGeometryType : GeometryType;
  points_ : list Vector3d;
  vertices_ : list Vector3d
}.

(** Modelled from the spec: [KDTreeSearchParam::SearchType] is declared in
    KDTreeSearchParam.h, which is not among the sources.  The tags are
    those the switch of [Search] names; any other value is an
    [OtherSearchType] and takes the [default] branch. *)
Inductive SearchType : Type :=
| Knn
| Radius
| Hybrid
| OtherSearchType (tag : Z).

(** Modelled from the spec: the parameter classes are declared in
    KDTreeSearchParam.h, which is not among the sources.  A search
    parameter is its tag and the members read after the downcast: the count
    [KDTreeSearchParamKNN::knn_], an [int], and the radius
    [KDTreeSearchParamRadius::radius_], a [double]. *)
Record KDTreeSearchParam : Type := mkParam {
  GetSearchType : SearchType;
  knn_ : Z;
  radius_ : double
}.

(** Modelled from the spec: [registration::Feature] is declared in a header
    that is not among the sources; it carries a precomputed feature-vector
    matrix, [data_]. *)
Record Feature : Type := mkFeature { feature_data_ : MatrixXd }.

(** ** The external flat index *)

(** Modelled from the spec: the external flat index ([faiss::IndexFlatL2])
    is a black box supporting "add points", "fixed-count search" and
    "radius search".  It is an interface over the type of its objects:
    construction for a dimension, [add(n, x)],
    [search(n, x, k, distances, labels)] and
    [range_search(n, x, radius, &result)].  The searches are handed
    pointers: they receive the storage of the query and the caller's two
    output buffers, and give the buffers back as they leave them; how much
    they write is their contract with the caller, who sizes the buffers. *)
Class FlatIndex (IndexFlatL2 : Type) : Type := {
  IndexFlatL2_new : Z -> IndexFlatL2;
  IndexFlatL2_add : IndexFlatL2 -> Z -> list float -> IndexFlatL2;
  IndexFlatL2_search :
    IndexFlatL2 -> Z -> list double -> Z ->
    list float -> list Z -> list float * list Z;
  IndexFlatL2_range_search :
    IndexFlatL2 -> Z -> list double -> float ->
    list float -> list Z -> list float * list Z
}.

(** Observable events: warnings of [utility::LogWarning] and calls into the
    external index. *)
Inductive Event : Type :=
| Warning (msg : string)
| FaissNew (d : Z)
| FaissAdd (n : Z) (x : list float)
| FaissSearch (n : Z) (x : list double) (k : Z)
| FaissRangeSearch (n : Z) (x : list double) (radius : float).

Section Adapter.

(** The type of the index objects, and the operations on them. *)
Context {IndexFlatL2 : Type} {backend : FlatIndex IndexFlatL2}.

(** Modelled from the spec: the data members of [KnnFaiss] are declared in
    KnnFaiss.h, which is not among the sources.  [data_] is the flat
    column-major buffer of 32-bit floats, [index] the owned handle on the
    external index (null until a build), [dimension_] and [dataset_size_]
    are [size_t]. *)
Record KnnFaiss : Type := mkKnnFaiss {
  data_ : list float;
  index : option IndexFlatL2;
  dimension_ : Z;
  dataset_size_ : Z
}.

(** The object, the caller's two output vectors (passed by reference to
    every search) and the events so far. *)
Record World : Type := mkWorld {
  this : KnnFaiss;
  indices : list Z;
  distance2 : list float;
  log : list Event
}.

(** Result of running a member function: it returns a value in a new
    world, or its behaviour is undefined (a null [index] is
    dereferenced). *)
Inductive Outcome (A : Type) : Type :=
| Returns (a : A) (w : World)
| Undefined.
Arguments Returns {A} a w.
Arguments Undefined {A}.

Definition M (A : Type) : Type := World -> Outcome A.

Definition ret {A} (a : A) : M A := fun w => Returns a w.

Definition bind {A B} (m : M A) (f : A -> M B) : M B :=
  fun w => match m w with
           | Returns a w' => f a w'
           | Undefined => Undefined
           end.

Notation "x <- m ;; f" := (bind m (fun x => f))
  (at level 61, m at next level, right associativity).
Notation "m ;; f" := (bind m (fun _ => f))
  (at level 61, right associativity).

Definition get_this : M KnnFaiss := fun w => Returns (this w) w.

Definition put_this (s : KnnFaiss) : M unit :=
  fun w => Returns tt (mkWorld s (indices w) (distance2 w) (log w)).

Definition emit (e : Event) : M unit :=
  fun w => Returns tt
    (mkWorld (this w) (indices w) (distance2 w) (log w ++ [e])).

(** [utility::LogWarning(msg)]. *)
Definition LogWarning (msg : string) : M unit := emit (Warning msg).

(** [dimension_ = v]. *)
Definition set_dimension_ (v : Z) : M unit :=
  s <- get_this ;;
  put_this (mkKnnFaiss (data_ s) (index s) v (dataset_size_ s)).

(** [dataset_size_ = v]. *)
Definition set_dataset_size_ (v : Z) : M unit :=
  s <- get_this ;;
  put_this (mkKnnFaiss (data_ s) (index s) (dimension_ s) v).

(** [data_.resize(n)]. *)
Definition data_resize (n : Z) : M unit :=
  s <- get_this ;;
  put_this (mkKnnFaiss (resize n (data_ s)) (index s)
                       (dimension_ s) (dataset_size_ s)).

(** [memcpy(data_.data(), src, count)] with [src] an array of [double]. *)
Definition data_memcpy (src : list double) (count : Z) : M unit :=
  s <- get_this ;;
  put_this (mkKnnFaiss
              (floats_of_bytes
                 (memcpy (bytes_of_floats (data_ s)) (bytes_of_doubles src)
                         count))
              (index s) (dimension_ s) (dataset_size_ s)).

(** [index.reset(new faiss::IndexFlatL2(d))]. *)
Definition index_reset_new (d : Z) : M unit :=
  s <- get_this ;;
  emit (FaissNew d) ;;
  put_this (mkKnnFaiss (data_ s) (Some (IndexFlatL2_new d))
                       (dimension_ s) (dataset_size_ s)).

(** [index->add(n, data_.data())]. *)
Definition index_add (n : Z) : M unit :=
  s <- get_this ;;
  match index s with
  | None => fun _ => Undefined
  | Some h =>
      emit (FaissAdd n (data_ s)) ;;
      put_this (mkKnnFaiss (data_ s) (Some (IndexFlatL2_add h n (data_ s)))
                           (dimension_ s) (dataset_size_ s))
  end.

(** [index->search(n, x, k, distance2.data(), indices.data())]. *)
Definition index_search (n : Z) (x : list double) (k : Z) : M unit :=
  fun w =>
    match index (this w) with
    | None => Undefined
    | Some h =>
        let '(dis, lab) :=
          IndexFlatL2_search h n x k (distance2 w) (indices w) in
        Returns tt (mkWorld (this w) lab dis (log w ++ [FaissSearch n x k]))
    end.

(** [faiss::RangeSearchResult result(n); result.labels = indices.data();
    result.distances = distance2.data();
    index->range_search(n, x, radius, &result)]. *)
Definition index_range_search (n : Z) (x : list double) (radius : float)
  : M unit :=
  fun w =>
    match index (this w) with
    | None => Undefined
    | Some h =>
        let '(dis, lab) :=
          IndexFlatL2_range_search h n x radius (distance2 w) (indices w) in
        Returns tt
          (mkWorld (this w) lab dis (log w ++ [FaissRangeSearch n x radius]))
    end.

(** [KnnFaiss::SetRawData].  The source writes
    [new faiss::indexFlatL2(dimension)] and leaves out the semicolon after
    [index->add(...)]; the class meant is [faiss::IndexFlatL2] and the only
    dimension in scope is [dimension_].  The [memcpy] takes its source as
    [const void *]: it copies bytes of the [double] storage. *)
Definition SetRawData (m : MatrixXd) : M bool :=
  set_dimension_ (size_t (rows m)) ;;
  set_dataset_size_ (size_t (cols m)) ;;
  s <- get_this ;;
  if (dimension_ s =? 0) || (dataset_size_ s =? 0) then
    LogWarning "[KnnFaiss::SetRawData] Failed due to no data." ;;
    ret false
  else
    data_resize (size_t (dataset_size_ s * dimension_ s)) ;;
    data_memcpy (data m)
      (size_t (size_t (dataset_size_ s * dimension_ s) * sizeof_float)) ;;
    index_reset_new (dimension_ s) ;;
    index_add (dataset_size_ s) ;;
    ret true.

(** [KnnFaiss::SetMatrixData]: the map over [data.data()] with the same
    shape is the matrix itself. *)
Definition SetMatrixData (m : MatrixXd) : M bool :=
  SetRawData (mkMatrix (rows m) (cols m) (data m)).

(** [KnnFaiss::SetGeometry]. *)
Definition SetGeometry (geometry : Geometry) : M bool :=
  match GetGeometryType geometry with
  | PointCloud =>
      SetRawData (mkMatrix 3 (Z.of_nat (length (points_ geometry)))
                           (doubles_of_points (points_ geometry)))
  | TriangleMesh
  | HalfEdgeTriangleMesh =>
      SetRawData (mkMatrix 3 (Z.of_nat (length (vertices_ geometry)))
                           (doubles_of_points (vertices_ geometry)))
  | Image
  | Unspecified
  | OtherGeometryType _ =>
      LogWarning "[KnnFaiss::SetGeometry] Unsupported Geometry type." ;;
      ret false
  end.

(** [KnnFaiss::SetFeature]. *)
Definition SetFeature (feature : Feature) : M bool :=
  SetMatrixData (feature_data_ feature).

(** [data_.empty()]. *)
Definition empty (v : list float) : bool :=
  match v with [] => true | _ => false end.

(** [KnnFaiss::SearchKNN]. *)
Definition SearchKNN (query : MatrixXd) (knn : Z) : M Z :=
  s <- get_this ;;
  if empty (data_ s) || (dataset_size_ s <=? 0) ||
     negb (size_t (rows query) =? dimension_ s) || (knn <? 0)
  then ret (-1)
  else
    index_search (cols query) (data query) knn ;;
    ret knn.

(** [KnnFaiss::SearchRadius]. *)
Definition SearchRadius (query : MatrixXd) (radius : float) : M Z :=
  s <- get_this ;;
  if empty (data_ s) || (dataset_size_ s <=? 0) ||
     negb (size_t (rows query) =? dimension_ s)
  then ret (-1)
  else
    index_range_search (cols query) (data query) radius ;;
    ret 1.

(** [KnnFaiss::Search].  [radius_] is a [double] and [SearchRadius] takes
    a [float]: the argument is converted. *)
Definition Search (query : MatrixXd) (param : KDTreeSearchParam) : M Z :=
  match GetSearchType param with
  | Knn => SearchKNN query (knn_ param)
  | Radius => SearchRadius query (double_to_float (radius_ param))
  | Hybrid
  | OtherSearchType _ => ret (-1)
  end.

(** Modelled from the spec: the member initialisers are in KnnFaiss.h.  A
    default-constructed [KnnFaiss] is unbuilt: an empty vector, a null
    handle and zero sizes. *)
Definition KnnFaiss_default : KnnFaiss := mkKnnFaiss [] None 0 0.

Definition World_default : World := mkWorld KnnFaiss_default [] [] [].

(** [KnnFaiss::KnnFaiss()]: an empty body, the members start from their
    defaults. *)
Definition KnnFaiss_ctor : M unit := put_this KnnFaiss_default.

(** [KnnFaiss::KnnFaiss(const Eigen::MatrixXd &data)]: calls
    [SetMatrixData(data)] and drops its result. *)
Definition KnnFaiss_ctor_matrix (m : MatrixXd) : M unit :=
  KnnFaiss_ctor ;;
  SetMatrixData m ;;
  ret tt.

(** [KnnFaiss::KnnFaiss(const Geometry &geometry)]: calls
    [SetGeometry(geometry)] and drops its result. *)
Definition KnnFaiss_ctor_geometry (geometry : Geometry) : M unit :=
  KnnFaiss_ctor ;;
  SetGeometry geometry ;;
  ret tt.

(** [KnnFaiss::KnnFaiss(const registration::Feature &feature)]: calls
    [SetFeature(feature)] and drops its result. *)
Definition KnnFaiss_ctor_feature (feature : Feature) : M unit :=
  KnnFaiss_ctor ;;
  SetFeature feature ;;
  ret tt.

(** The guard shared by the searches reads the index as built when its
    store is non-empty and its dataset size is positive. *)
Definition built (s : KnnFaiss) : Prop :=
  data_ s <> [] /\ 0 < dataset_size_ s.

(** Class invariant: a non-empty store comes with a live handle. *)
Definition handle_ok (s : KnnFaiss) : Prop :=
  data_ s <> [] -> index s <> None.

End Adapter.

Arguments Returns {IndexFlatL2 A} a w.
Arguments Undefined {IndexFlatL2 A}.

(** ** A reference flat index

    An exhaustive L2 index in binary32 arithmetic, used to run the adapter
    on concrete inputs: it stores the vectors it is given, compares a query
    against every one of them, and reports squared distances in ascending
    order, the vector added first winning a tie. *)
Module Reference.

Record Flat : Type := mkFlat {
  d : Z;
  ntotal : Z;
  xb : list float
}.

Definition new (dim : Z) : Flat := mkFlat dim 0 [].

(** [add(n, x)] appends the first [n * d] floats at [x]. *)
Definition add (h : Flat) (n : Z) (x : list float) : Flat :=
  mkFlat (d h) (ntotal h + n) (xb h ++ firstn (Z.to_nat (n * d h)) x).

(** Vector number [j] of an array of [dim]-dimensional vectors; memory past
    the end of the array reads as 0.0f. *)
Definition vec (dim : Z) (a : list float) (j : nat) : list float :=
  map (fun i => nth (j * Z.to_nat dim + i) a 0) (seq 0 (Z.to_nat dim)).

(** Squared distance, accumulated coordinate by coordinate. *)
Fixpoint L2sqr_from (acc : float) (x y : list float) : float :=
  match x, y with
  | a :: x', b :: y' =>
      let t := IEEE.fsub a b in
      L2sqr_from (IEEE.fadd acc (IEEE.fmul t t)) x' y'
  | _, _ => acc
  end.

Definition L2sqr (x y : list float) : float := L2sqr_from 0 x y.

(** Insertion that keeps the list ascending by distance and puts a new entry
    after the entries it ties with. *)
Fixpoint insert (e : float * Z) (l : list (float * Z)) : list (float * Z) :=
  match l with
  | [] => [e]
  | e' :: r => if IEEE.fltb (fst e) (fst e') then e :: l else e' :: insert e r
  end.

(** Distances from [q] to every stored vector, with their labels. *)
Definition scan (h : Flat) (q : list float) : list (float * Z) :=
  map (fun j => (L2sqr q (vec (d h) (xb h) j), Z.of_nat j))
      (seq 0 (Z.to_nat (ntotal h))).

(** The pattern of +infinity, which pads a result shorter than [k]. *)
Definition plus_infinity : float := 0x7F800000.

(** The [k] nearest entries of one query, padded with label -1. *)
Definition knn_one (h : Flat) (k : Z) (q : list float) : list (float * Z) :=
  let sorted := fold_left (fun acc e => insert e acc) (scan h q) [] in
  firstn (Z.to_nat k)
         (sorted ++ repeat (plus_infinity, -1) (Z.to_nat k - length sorted)).

(** The entries of one query strictly within [radius]. *)
Definition range_one (h : Flat) (radius : float) (q : list float)
  : list (float * Z) :=
  filter (fun e => IEEE.fltb (fst e) radius) (scan h q).

(** The queries the index reads at [x]: it takes the pointer as
    [const float *] and reads [n * d] floats from the storage. *)
Definition queries (h : Flat) (n : Z) (x : list double) : list (list float) :=
  map (vec (d h) (floats_of_bytes (bytes_of_doubles x))) (seq 0 (Z.to_nat n)).

(** Writing results at the start of a caller's buffer. *)
Definition store {A} (buf res : list A) : list A :=
  res ++ skipn (length res) buf.

Definition search (h : Flat) (n : Z) (x : list double) (k : Z)
           (distances : list float) (labels : list Z)
  : list float * list Z :=
  let res := flat_map (knn_one h k) (queries h n x) in
  (store distances (map fst res), store labels (map snd res)).

Definition range_search (h : Flat) (n : Z) (x : list double) (radius : float)
           (distances : list float) (labels : list Z)
  : list float * list Z :=
  let res := flat_map (range_one h radius) (queries h n x) in
  (store distances (map fst res), store labels (map snd res)).

End Reference.

#[export] Instance reference_index : FlatIndex Reference.Flat := {|
  IndexFlatL2_new := Reference.new;
  IndexFlatL2_add := Reference.add;
  IndexFlatL2_search := Reference.search;
  IndexFlatL2_range_search := Reference.range_search
|}.

(** ** Vocabulary of the properties *)

(** The two 32-bit words of a [double], low word first. *)
Definition words_of_double (x : double) : list float :=
  [x mod 2 ^ 32; (x / 2 ^ 32) mod 2 ^ 32].

(** The geometry types [SetGeometry] has a case for. *)
Definition supported_geometry (t : GeometryType) : bool :=
  match t with
  | PointCloud | TriangleMesh | HalfEdgeTriangleMesh => true
  | _ => false
  end.

(** A query has the row count of an [Eigen::Index]. *)
Definition wf_query (q : MatrixXd) : Prop := 0 <= rows q < 2 ^ 63.

(** The two patterns of a zero distance. *)
Definition is_zero (f : float) : Prop := f = 0 \/ f = 0x80000000.

(** Some constants: 1.0, the patterns of 1.0f and -1.0f. *)
Definition one : double := 0x3FF0000000000000.
Definition onef : float := 0x3F800000.
Definition minus_onef : float := 0xBF800000.

(** More constants: 2.0, and the patterns of 2.0f and 1.875f. *)
Definition two : double := 0x4000000000000000.
Definition twof : float := 0x40000000.
Definition one_875f : float := 0x3FF00000.

(** The messages of the two warnings. *)
Definition no_data_warning : string :=
  "[KnnFaiss::SetRawData] Failed due to no data.".
Definition unsupported_warning : string :=
  "[KnnFaiss::SetGeometry] Unsupported Geometry type.".

(** Example inputs: the 1x1 matrix (1.0), a 1x2 matrix with twice the
    column (0.0), an empty matrix of shape 3x0, one of shape 0x1 (also the
    [Eigen::VectorXd] of size 0), and the one-row query (0.0). *)
Definition unit_matrix : MatrixXd := mkMatrix 1 1 [one].
Definition twin_matrix : MatrixXd := mkMatrix 1 2 [0; 0].
Definition matrix_3x0 : MatrixXd := mkMatrix 3 0 [].
Definition matrix_0x1 : MatrixXd := mkMatrix 0 1 [].
Definition zero_query : MatrixXd := mkMatrix 1 1 [0].

(** The 1x2 matrix of the two distinct columns (1.0) and (2.0). *)
Definition distinct_matrix : MatrixXd := mkMatrix 1 2 [one; two].

(** The events that are a search of the external index. *)
Definition search_event (e : Event) : bool :=
  match e with
  | FaissSearch _ _ _ | FaissRangeSearch _ _ _ => true
  | _ => false
  end.

(** The positions [SetGeometry] reads from a geometry: the points of a
    point cloud, the vertices of a mesh. *)
Definition positions (g : Geometry) : list Vector3d :=
  match GetGeometryType g with
  | PointCloud => points_ g
  | TriangleMesh | HalfEdgeTriangleMesh => vertices_ g
  | _ => []
  end.

(** A point cloud of the two points (0,0,0) and (1,0,0), an empty triangle
    mesh, and an image. *)
Definition two_points : Geometry :=
  mkGeometry PointCloud [(0, 0, 0); (one, 0, 0)] [].
Definition empty_mesh : Geometry := mkGeometry TriangleMesh [] [].
Definition an_image : Geometry := mkGeometry Image [] [].

Section Vocabulary.

Context {IndexFlatL2 : Type} {backend : FlatIndex IndexFlatL2}.

Local Abbreviation World := (@World IndexFlatL2).

(** The store [SetRawData] computes from the source [m] and the previous
    store [old]: [resize], then [memcpy]. *)
Definition ingested (m : MatrixXd) (old : list float) : list float :=
  let n := size_t (size_t (cols m) * size_t (rows m)) in
  floats_of_bytes
    (memcpy (bytes_of_floats (resize n old)) (bytes_of_doubles (data m))
            (size_t (n * sizeof_float))).

(** The world a successful [SetRawData m] leaves. *)
Definition world_built (m : MatrixXd) (w : World) : World :=
  let dd := size_t (rows m) in
  let n := size_t (cols m) in
  let st := ingested m (data_ (this w)) in
  mkWorld (mkKnnFaiss st (Some (IndexFlatL2_add (IndexFlatL2_new dd) n st)) dd n)
          (indices w) (distance2 w)
          ((log w ++ [FaissNew dd]) ++ [FaissAdd n st]).

(** The world a failed [SetRawData m] leaves. *)
Definition world_no_data (m : MatrixXd) (w : World) : World :=
  mkWorld (mkKnnFaiss (data_ (this w)) (index (this w))
                      (size_t (rows m)) (size_t (cols m)))
          (indices w) (distance2 w)
          (log w ++ [Warning no_data_warning]).

(** The world a search leaves once [index->search] has run on handle
    [h]. *)
Definition world_searched (h : IndexFlatL2) (q : MatrixXd) (k : Z) (w : World)
  : World :=
  let res :=
    IndexFlatL2_search h (cols q) (data q) k (distance2 w) (indices w) in
  mkWorld (this w) (snd res) (fst res)
          (log w ++ [FaissSearch (cols q) (data q) k]).

(** The world a search leaves once [index->range_search] has run on handle
    [h]. *)
Definition world_ranged (h : IndexFlatL2) (q : MatrixXd) (r : float) (w : World)
  : World :=
  let res :=
    IndexFlatL2_range_search h (cols q) (data q) r (distance2 w) (indices w) in
  mkWorld (this w) (snd res) (fst res)
          (log w ++ [FaissRangeSearch (cols q) (data q) r]).

(** The world [SetGeometry] leaves for an unsupported geometry. *)
Definition world_warned (w : World) : World :=
  mkWorld (this w) (indices w) (distance2 w)
          (log w ++ [Warning unsupported_warning]).

(** A default-constructed index with the caller's vectors presized to one
    entry each. *)
Definition World_presized : World := mkWorld KnnFaiss_default [0] [0] [].

(** An index built from [twin_matrix], and one built from [unit_matrix]. *)
Definition World_twins : World := world_built twin_matrix World_presized.
Definition World_unit : World := world_built unit_matrix World_presized.

(** The twin index with the caller's vectors presized to two entries that
    hold marks (7 and 1.0f) no search of this index produces. *)
Definition World_twins_marked : World :=
  mkWorld (this World_twins) [7; 7] [onef; onef] (log World_twins).

(** The downcast reading of ingestion: the store is the element-wise
    conversion of the source. *)
Definition stores_downcast (m : MatrixXd) (w : World) : Prop :=
  data_ (this w) = map double_to_float (data m).

(** The self-query reading: ingestion succeeds and the 1-nearest search for
    column [i] reports index [i] at a zero distance. *)
Definition knn1_finds_column (m : MatrixXd) (i : Z) (w : World) : Prop :=
  exists w1 w2 dz,
    SetRawData m w = Returns true w1 /\
    SearchKNN (col m i) 1 w1 = Returns 1 w2 /\
    nth_error (indices w2) 0 = Some i /\
    nth_error (distance2 w2) 0 = Some dz /\ is_zero dz.

(** Every search fails in [w], leaving it as it is. *)
Definition all_searches_fail (w : World) : Prop :=
  forall (q : MatrixXd) (p : KDTreeSearchParam) (k : Z) (r : float),
    wf_query q ->
    Search q p w = Returns (-1) w /\
    SearchKNN q k w = Returns (-1) w /\
    SearchRadius q r w = Returns (-1) w.

(** The zeroing reading of a failed re-ingestion: both sizes end at zero
    and every later search fails. *)
Definition reingest_zeroes (m : MatrixXd) (w : World) : Prop :=
  exists w',
    SetRawData m w = Returns false w' /\
    dimension_ (this w') = 0 /\ dataset_size_ (this w') = 0 /\
    data_ (this w') = data_ (this w) /\
    all_searches_fail w'.

(** The worlds a program can be in: a default-constructed index with any
    caller vectors, followed by calls of the member functions; between
    calls the caller may replace its two vectors. *)
Inductive reachable : World -> Prop :=
| reach_default (i : list Z) (d : list float) :
    reachable (mkWorld KnnFaiss_default i d [])
| reach_buffers (w : World) (i : list Z) (d : list float) :
    reachable w -> reachable (mkWorld (this w) i d (log w))
| reach_SetRawData (m : MatrixXd) (w w' : World) (b : bool) :
    reachable w -> SetRawData m w = Returns b w' -> reachable w'
| reach_SetMatrixData (m : MatrixXd) (w w' : World) (b : bool) :
    reachable w -> SetMatrixData m w = Returns b w' -> reachable w'
| reach_SetGeometry (g : Geometry) (w w' : World) (b : bool) :
    reachable w -> SetGeometry g w = Returns b w' -> reachable w'
| reach_SetFeature (f : Feature) (w w' : World) (b : bool) :
    reachable w -> SetFeature f w = Returns b w' -> reachable w'
| reach_Search (q : MatrixXd) (p : KDTreeSearchParam) (w w' : World) (v : Z) :
    reachable w -> Search q p w = Returns v w' -> reachable w'
| reach_SearchKNN (q : MatrixXd) (k : Z) (w w' : World) (v : Z) :
    reachable w -> SearchKNN q k w = Returns v w' -> reachable w'
| reach_SearchRadius (q : MatrixXd) (r : float) (w w' : World) (v : Z) :
    reachable w -> SearchRadius q r w = Returns v w' -> reachable w'.

(** The handle is the index made for [dimension_] and filled with
    [dataset_size_] vectors from the current store. *)
Definition paired (s : @KnnFaiss IndexFlatL2) : Prop :=
  dimension_ s <> 0 -> dataset_size_ s <> 0 ->
  index s = Some (IndexFlatL2_add (IndexFlatL2_new (dimension_ s))
                                  (dataset_size_ s) (data_ s)).

End Vocabulary.

(** ** Memory lemmas *)

Lemma le_value_word (x : Z) :
  le_value (le_bytes 4 x) = x mod 2 ^ 32.
Proof.
  cbn [le_bytes le_value].
  change (2 ^ 32) with 4294967296.
  Z.div_mod_to_equations. lia.
Qed.

Lemma le_bytes_double (x : Z) :
  le_bytes 8 x = le_bytes 4 (x mod 2 ^ 32) ++ le_bytes 4 ((x / 2 ^ 32) mod 2 ^ 32).
Proof.
  cbn [le_bytes app].
  change (2 ^ 32) with 4294967296.
  repeat match goal with
         | |- _ :: _ = _ :: _ => apply (f_equal2 cons)
         end; try reflexivity; Z.div_mod_to_equations; lia.
Qed.

Lemma bytes_of_doubles_words (l : list double) :
  bytes_of_doubles l = bytes_of_floats (flat_map words_of_double l).
Proof.
  unfold bytes_of_doubles, bytes_of_floats.
  induction l as [|x l IH]; [reflexivity|].
  cbn [flat_map words_of_double app]. rewrite IH, le_bytes_double.
  rewrite <- app_assoc. reflexivity.
Qed.

Lemma mod_word_idem (x : Z) : (x mod 2 ^ 32) mod 2 ^ 32 = x mod 2 ^ 32.
Proof. apply Z.mod_mod. discriminate. Qed.

Lemma floats_of_bytes_cons (v : float) (bs : list byte) :
  floats_of_bytes (le_bytes 4 v ++ bs) = v mod 2 ^ 32 :: floats_of_bytes bs.
Proof.
  rewrite <- le_value_word. reflexivity.
Qed.

Lemma length_le_bytes (n : nat) (v : Z) : length (le_bytes n v) = n.
Proof.
  revert v. induction n as [|n IH]; intros v; cbn; [reflexivity|].
  now rewrite IH.
Qed.

Lemma length_bytes_of_floats (l : list float) :
  length (bytes_of_floats l) = (4 * length l)%nat.
Proof.
  unfold bytes_of_floats.
  rewrite (flat_map_constant_length (c := 4%nat)); [apply Nat.mul_comm|].
  intros x _. apply length_le_bytes.
Qed.

(** Reading back the first [n] floats of an array of floats. *)
Lemma floats_of_bytes_firstn (n : nat) (l : list float) :
  floats_of_bytes (firstn (4 * n) (bytes_of_floats l))
  = map (fun v => v mod 2 ^ 32) (firstn n l).
Proof.
  revert l. induction n as [|n IH]; intros l.
  - reflexivity.
  - destruct l as [|v l]; [reflexivity|].
    replace (4 * S n)%nat with (4 + 4 * n)%nat by lia.
    unfold bytes_of_floats. cbn [flat_map].
    change 4%nat with (length (le_bytes 4 v)) at 1.
    rewrite firstn_app_2, floats_of_bytes_cons.
    cbn [firstn map]. f_equal. apply IH.
Qed.

Lemma words_reduced (l : list double) (n : nat) :
  map (fun v => v mod 2 ^ 32) (firstn n (flat_map words_of_double l))
  = firstn n (flat_map words_of_double l).
Proof.
  rewrite <- firstn_map. f_equal.
  induction l as [|x l IH]; [reflexivity|].
  cbn [flat_map words_of_double app map].
  rewrite !mod_word_idem, IH. reflexivity.
Qed.

Lemma length_resize (n : Z) (v : list float) :
  length (resize n v) = Z.to_nat n.
Proof.
  unfold resize. rewrite length_app, length_firstn, repeat_length. lia.
Qed.

(** What the [resize] and [memcpy] of [SetRawData] leave in the store when
    the source holds at least [n] floats' worth of bytes: the first [n]
    32-bit words of the source's object representation. *)
Lemma memcpy_into_resized (n : Z) (old : list float) (src : list double) :
  0 <= n ->
  floats_of_bytes
    (memcpy (bytes_of_floats (resize n old)) (bytes_of_doubles src)
            (n * sizeof_float))
  = firstn (Z.to_nat n) (flat_map words_of_double src).
Proof.
  intros Hn. unfold memcpy, sizeof_float.
  replace (Z.to_nat (n * 4)) with (4 * Z.to_nat n)%nat by lia.
  rewrite (skipn_all2 (bytes_of_floats (resize n old))).
  2: { rewrite length_bytes_of_floats, length_resize. lia. }
  rewrite app_nil_r, bytes_of_doubles_words, floats_of_bytes_firstn.
  apply words_reduced.
Qed.

Lemma length_words (l : list double) :
  length (flat_map words_of_double l) = (2 * length l)%nat.
Proof.
  rewrite (flat_map_constant_length (c := 2%nat)); [apply Nat.mul_comm|].
  intros x _. reflexivity.
Qed.

(** ** The adapter *)

Section Properties.

Context {IndexFlatL2 : Type} {backend : FlatIndex IndexFlatL2}.

Local Abbreviation World := (@World IndexFlatL2).

Ltac run :=
  unfold SetGeometry, SetFeature, SetMatrixData, SetRawData,
    Search, SearchKNN, SearchRadius,
    index_search, index_range_search, index_add, index_reset_new,
    data_memcpy, data_resize, set_dataset_size_, set_dimension_,
    LogWarning, emit, put_this, get_this, bind, ret;
  cbn [this indices distance2 log data_ index dimension_ dataset_size_
       rows cols data].

(** *** Ingestion *)

Lemma SetRawData_no_data (m : MatrixXd) (w : World) :
  size_t (rows m) = 0 \/ size_t (cols m) = 0 ->
  SetRawData m w = Returns false (world_no_data m w).
Proof.
  intros H. run.
  replace ((size_t (rows m) =? 0) || (size_t (cols m) =? 0)) with true.
  - reflexivity.
  - symmetry. apply orb_true_iff. rewrite !Z.eqb_eq. exact H.
Qed.

Lemma SetRawData_some_data (m : MatrixXd) (w : World) :
  size_t (rows m) <> 0 -> size_t (cols m) <> 0 ->
  SetRawData m w = Returns true (world_built m w).
Proof.
  intros Hr Hc. run.
  apply Z.eqb_neq in Hr, Hc. rewrite Hr, Hc. reflexivity.
Qed.

Lemma SetMatrixData_SetRawData (m : MatrixXd) :
  SetMatrixData m = SetRawData m.
Proof. destruct m. reflexivity. Qed.

Lemma size_t_small (x : Z) : 0 <= x < 2 ^ 64 -> size_t x = x.
Proof. intros H. unfold size_t. apply Z.mod_small. exact H. Qed.

Lemma wf_matrix_sizes (m : MatrixXd) :
  wf_matrix m ->
  size_t (rows m) = rows m /\ size_t (cols m) = cols m /\
  size_t (size_t (cols m) * size_t (rows m)) = rows m * cols m /\
  size_t (rows m * cols m * sizeof_float) = rows m * cols m * sizeof_float.
Proof.
  intros (Hr & Hc & Hl & Hb).
  assert (Er : size_t (rows m) = rows m) by (apply size_t_small; lia).
  assert (Ec : size_t (cols m) = cols m) by (apply size_t_small; lia).
  rewrite Er, Ec. repeat split.
  - rewrite Z.mul_comm. apply size_t_small. nia.
  - apply size_t_small. unfold sizeof_float. nia.
Qed.

(** The store after ingesting a well-formed matrix: the first
    [rows * cols] 32-bit words of the source's memory, that is, the two
    halves of each of the first [rows * cols / 2] doubles. *)
Lemma ingested_words (m : MatrixXd) (old : list float) :
  wf_matrix m ->
  ingested m old
  = firstn (Z.to_nat (rows m * cols m)) (flat_map words_of_double (data m)).
Proof.
  intros Hwf. unfold ingested.
  destruct (wf_matrix_sizes m Hwf) as (_ & _ & En & Eb).
  rewrite En, Eb.
  apply memcpy_into_resized.
  destruct Hwf as (Hr & Hc & _). nia.
Qed.

Lemma length_ingested (m : MatrixXd) (old : list float) :
  wf_matrix m ->
  Z.of_nat (length (ingested m old)) = rows m * cols m.
Proof.
  intros Hwf. rewrite ingested_words by exact Hwf.
  rewrite length_firstn, length_words.
  destruct Hwf as (Hr & Hc & Hl & _). nia.
Qed.

Lemma ingested_nonempty (m : MatrixXd) (old : list float) :
  wf_matrix m -> 0 < rows m -> 0 < cols m -> ingested m old <> [].
Proof.
  intros Hwf Hr Hc E.
  pose proof (length_ingested m old Hwf) as L. rewrite E in L.
  cbn in L. nia.
Qed.

(** A successful ingestion of a well-formed matrix, and what it stores. *)
Lemma SetRawData_stores_words (m : MatrixXd) (w : World) :
  wf_matrix m -> 0 < rows m -> 0 < cols m ->
  SetRawData m w = Returns true (world_built m w) /\
  data_ (this (world_built m w))
  = firstn (Z.to_nat (rows m * cols m)) (flat_map words_of_double (data m)) /\
  built (this (world_built m w)) /\
  dimension_ (this (world_built m w)) = rows m.
Proof.
  intros Hwf Hr Hc.
  destruct (wf_matrix_sizes m Hwf) as (Er & Ec & _).
  split; [apply SetRawData_some_data; lia|].
  unfold world_built, built. cbn [this data_ dataset_size_ dimension_].
  split; [apply ingested_words; exact Hwf|].
  split; [|exact Er].
  split; [apply ingested_nonempty; assumption|lia].
Qed.

(** *** The class invariant *)

Lemma handle_ok_default : handle_ok (@KnnFaiss_default IndexFlatL2).
Proof. intros H. now contradiction H. Qed.

Lemma handle_ok_SetRawData (m : MatrixXd) (w : World) :
  handle_ok (this w) ->
  exists b w', SetRawData m w = Returns b w' /\ handle_ok (this w').
Proof.
  intros Hok.
  destruct (Z.eq_dec (size_t (rows m)) 0) as [Er|Er].
  - exists false, (world_no_data m w). split.
    + apply SetRawData_no_data. now left.
    + exact Hok.
  - destruct (Z.eq_dec (size_t (cols m)) 0) as [Ec|Ec].
    + exists false, (world_no_data m w). split.
      * apply SetRawData_no_data. now right.
      * exact Hok.
    + exists true, (world_built m w). split.
      * now apply SetRawData_some_data.
      * intros _. discriminate.
Qed.

Lemma handle_ok_SetGeometry (g : Geometry) (w : World) :
  handle_ok (this w) ->
  exists b w', SetGeometry g w = Returns b w' /\ handle_ok (this w').
Proof.
  intros Hok. unfold SetGeometry.
  destruct (GetGeometryType g);
    try (now apply handle_ok_SetRawData);
    now exists false, (world_warned w).
Qed.

Lemma handle_ok_SetFeature (f : Feature) (w : World) :
  handle_ok (this w) ->
  exists b w', SetFeature f w = Returns b w' /\ handle_ok (this w').
Proof.
  intros Hok. unfold SetFeature, SetMatrixData. now apply handle_ok_SetRawData.
Qed.

(** *** The guard of the searches *)

Lemma rows_mismatch (q : MatrixXd) (dim : Z) :
  wf_query q -> rows q <> dim -> (size_t (rows q) =? dim) = false.
Proof.
  intros Hq Hne. apply Z.eqb_neq.
  rewrite size_t_small; [exact Hne|]. unfold wf_query in Hq. lia.
Qed.

Lemma rows_match (q : MatrixXd) (dim : Z) :
  wf_query q -> rows q = dim -> (size_t (rows q) =? dim) = true.
Proof.
  intros Hq He. apply Z.eqb_eq.
  rewrite size_t_small; [exact He|]. unfold wf_query in Hq. lia.
Qed.

Lemma empty_nil (v : list float) : v = [] -> empty v = true.
Proof. intros ->. reflexivity. Qed.

Lemma empty_cons (v : list float) : v <> [] -> empty v = false.
Proof. destruct v; [intros H; now contradiction H|reflexivity]. Qed.

Lemma SearchKNN_rejects (q : MatrixXd) (k : Z) (w : World) :
  wf_query q ->
  data_ (this w) = [] \/ dataset_size_ (this w) <= 0 \/
  rows q <> dimension_ (this w) \/ k < 0 ->
  SearchKNN q k w = Returns (-1) w.
Proof.
  intros Hq H. run.
  replace (empty (data_ (this w)) || (dataset_size_ (this w) <=? 0)
           || negb (size_t (rows q) =? dimension_ (this w)) || (k <? 0))
    with true; [reflexivity|].
  symmetry. destruct H as [H|[H|[H|H]]].
  - now rewrite (empty_nil _ H).
  - apply Z.leb_le in H. rewrite H. now rewrite orb_true_r.
  - rewrite (rows_mismatch q _ Hq H). cbn. now rewrite orb_true_r.
  - apply Z.ltb_lt in H. rewrite H. now rewrite orb_true_r.
Qed.

Lemma SearchKNN_accepts (q : MatrixXd) (k : Z) (w : World) (h : IndexFlatL2) :
  wf_query q -> built (this w) -> rows q = dimension_ (this w) -> 0 <= k ->
  index (this w) = Some h ->
  SearchKNN q k w = Returns k (world_searched h q k w).
Proof.
  intros Hq (Hd & Hn) Hr Hk Hh. run.
  rewrite (empty_cons _ Hd), (rows_match q _ Hq Hr).
  replace (dataset_size_ (this w) <=? 0) with false by (symmetry; apply Z.leb_gt; lia).
  replace (k <? 0) with false by (symmetry; apply Z.ltb_ge; lia).
  cbn [orb negb]. rewrite Hh. unfold world_searched.
  destruct (IndexFlatL2_search h (cols q) (data q) k (distance2 w) (indices w)).
  reflexivity.
Qed.

Lemma SearchRadius_rejects (q : MatrixXd) (r : float) (w : World) :
  wf_query q ->
  data_ (this w) = [] \/ dataset_size_ (this w) <= 0 \/
  rows q <> dimension_ (this w) ->
  SearchRadius q r w = Returns (-1) w.
Proof.
  intros Hq H. run.
  replace (empty (data_ (this w)) || (dataset_size_ (this w) <=? 0)
           || negb (size_t (rows q) =? dimension_ (this w)))
    with true; [reflexivity|].
  symmetry. destruct H as [H|[H|H]].
  - now rewrite (empty_nil _ H).
  - apply Z.leb_le in H. rewrite H. now rewrite orb_true_r.
  - rewrite (rows_mismatch q _ Hq H). cbn. now rewrite orb_true_r.
Qed.

Lemma SearchRadius_accepts (q : MatrixXd) (r : float) (w : World)
      (h : IndexFlatL2) :
  wf_query q -> built (this w) -> rows q = dimension_ (this w) ->
  index (this w) = Some h ->
  SearchRadius q r w = Returns 1 (world_ranged h q r w).
Proof.
  intros Hq (Hd & Hn) Hr Hh. run.
  rewrite (empty_cons _ Hd), (rows_match q _ Hq Hr).
  replace (dataset_size_ (this w) <=? 0) with false by (symmetry; apply Z.leb_gt; lia).
  cbn [orb negb]. rewrite Hh. unfold world_ranged.
  destruct (IndexFlatL2_range_search h (cols q) (data q) r (distance2 w) (indices w)).
  reflexivity.
Qed.

Lemma built_handle (s : @KnnFaiss IndexFlatL2) :
  handle_ok s -> built s -> exists h, index s = Some h.
Proof.
  intros Hok (Hd & _). destruct (index s) as [h|] eqn:E.
  - now exists h.
  - now contradiction (Hok Hd).
Qed.

Lemma wf_unit_matrix : wf_matrix unit_matrix.
Proof. unfold wf_matrix, unit_matrix. cbn. lia. Qed.

Lemma wf_twin_matrix : wf_matrix twin_matrix.
Proof. unfold wf_matrix, twin_matrix. cbn. lia. Qed.

(** *** Ingestion stores raw words, not converted values *)

(** C1 (evaluation at the failing input). Ingesting the 1x1 matrix (1.0)
    succeeds, and the store then holds the single float 0.0f, the low word
    of the representation of 1.0, whereas the conversion of 1.0 to float is
    1.0f: the store is not the element-wise downcast of the source. *)
Theorem SetRawData_stores_low_word_of_one (w : World) :
  exists w',
    SetRawData unit_matrix w = Returns true w' /\
    SetMatrixData unit_matrix w = Returns true w' /\
    data_ (this w') = [0] /\
    map double_to_float (data unit_matrix) = [onef] /\
    ~ stores_downcast unit_matrix w'.
Proof.
  destruct (SetRawData_stores_words unit_matrix w wf_unit_matrix)
    as (Hrun & Hst & _); [reflexivity|reflexivity|].
  exists (world_built unit_matrix w).
  assert (E : data_ (this (world_built unit_matrix w)) = [0])
    by (rewrite Hst; reflexivity).
  split; [exact Hrun|].
  split; [rewrite SetMatrixData_SetRawData; exact Hrun|].
  split; [exact E|]. split; [reflexivity|].
  unfold stores_downcast. rewrite E. discriminate.
Qed.

(** *** Unsupported geometry *)

(** C4. For a geometry whose type is not point cloud, triangle mesh or
    half-edge triangle mesh, [SetGeometry] returns false; the world it
    leaves differs from the one it started in by one logged warning only, so
    every member of the index, built or not, is as before. *)
Theorem SetGeometry_unsupported (g : Geometry) (w : World) :
  supported_geometry (GetGeometryType g) = false ->
  SetGeometry g w = Returns false (world_warned w) /\
  this (world_warned w) = this w /\
  log (world_warned w) = log w ++ [Warning unsupported_warning].
Proof.
  intros H. split; [|split; reflexivity].
  unfold SetGeometry. destruct (GetGeometryType g); try discriminate H;
    reflexivity.
Qed.

(** *** Dispatch *)

(** C5. [Search] is [SearchKNN] on [knn_] for the tag [Knn], [SearchRadius]
    on the converted [radius_] for the tag [Radius], and for [Hybrid] and
    any other tag it returns -1 in the world it was called in: no call into
    the index, no event, no exceptional outcome. *)
Theorem Search_dispatch (q : MatrixXd) (k : Z) (r : double) (t : Z) (w : World) :
  Search q (mkParam Knn k r) w = SearchKNN q k w /\
  Search q (mkParam Radius k r) w = SearchRadius q (double_to_float r) w /\
  Search q (mkParam Hybrid k r) w = Returns (-1) w /\
  Search q (mkParam (OtherSearchType t) k r) w = Returns (-1) w.
Proof. split; [|split; [|split]]; reflexivity. Qed.

(** *** Fixed-count search *)

(** C6. On an index that satisfies the class invariant, [SearchKNN] returns
    -1 in an unchanged world (so without a call into the index) when the
    store is empty, the dataset size is not positive, the query's row count
    differs from [dimension_], or [k < 0]; otherwise it runs
    [index->search] on the live handle with the query's column count, the
    query's storage, [k] and the caller's two vectors, leaves in the
    caller's vectors what that call gave back, leaves the index as it was,
    and returns [k]. *)
Theorem SearchKNN_contract (q : MatrixXd) (k : Z) (w : World) :
  wf_query q -> handle_ok (this w) ->
  (data_ (this w) = [] \/ dataset_size_ (this w) <= 0 \/
   rows q <> dimension_ (this w) \/ k < 0 ->
   SearchKNN q k w = Returns (-1) w) /\
  (built (this w) -> rows q = dimension_ (this w) -> 0 <= k ->
   exists h w',
     index (this w) = Some h /\
     SearchKNN q k w = Returns k w' /\
     w' = world_searched h q k w /\
     this w' = this w /\
     (distance2 w', indices w')
     = IndexFlatL2_search h (cols q) (data q) k (distance2 w) (indices w) /\
     log w' = log w ++ [FaissSearch (cols q) (data q) k]).
Proof.
  intros Hq Hok. split.
  - apply SearchKNN_rejects. exact Hq.
  - intros Hb Hr Hk.
    destruct (built_handle _ Hok Hb) as (h & Hh).
    exists h, (world_searched h q k w).
    split; [exact Hh|].
    split; [now apply SearchKNN_accepts|].
    split; [reflexivity|]. split; [reflexivity|]. split; [|reflexivity].
    unfold world_searched. cbn [distance2 indices].
    now destruct (IndexFlatL2_search h (cols q) (data q) k
                    (distance2 w) (indices w)).
Qed.

(** *** Radius search *)

(** C7. [SearchRadius] has the build and dimension preconditions of
    [SearchKNN], returning -1 in an unchanged world when one fails; when
    they hold it returns the constant 1, whatever the index wrote to the
    caller's vectors, where [SearchKNN] returns its argument [k]. *)
Theorem SearchRadius_contract (q : MatrixXd) (r : float) (k : Z) (w : World) :
  wf_query q -> handle_ok (this w) ->
  (data_ (this w) = [] \/ dataset_size_ (this w) <= 0 \/
   rows q <> dimension_ (this w) ->
   SearchRadius q r w = Returns (-1) w /\ SearchKNN q k w = Returns (-1) w) /\
  (built (this w) -> rows q = dimension_ (this w) ->
   (exists w', SearchRadius q r w = Returns 1 w') /\
   (0 <= k -> exists w', SearchKNN q k w = Returns k w')).
Proof.
  intros Hq Hok. split.
  - intros H. split.
    + now apply SearchRadius_rejects.
    + apply SearchKNN_rejects; [exact Hq|]. tauto.
  - intros Hb Hr.
    destruct (built_handle _ Hok Hb) as (h & Hh). split.
    + exists (world_ranged h q r w). now apply SearchRadius_accepts.
    + intros Hk. exists (world_searched h q k w). now apply SearchKNN_accepts.
Qed.

(** C10. On a built index and for a query with the row count of the index,
    [SearchRadius] returns 1 for every radius, negative ones included: it
    runs [index->range_search] on the live handle with the query's column
    count, the query's storage, the radius as it was given and the caller's
    two vectors, and leaves in the caller's vectors what that call gave
    back. *)
Theorem SearchRadius_any_radius (q : MatrixXd) (r : float) (w : World) :
  wf_query q -> handle_ok (this w) ->
  built (this w) -> rows q = dimension_ (this w) ->
  exists h w',
    index (this w) = Some h /\
    SearchRadius q r w = Returns 1 w' /\
    w' = world_ranged h q r w /\
    this w' = this w /\
    (distance2 w', indices w')
    = IndexFlatL2_range_search h (cols q) (data q) r
                               (distance2 w) (indices w) /\
    log w' = log w ++ [FaissRangeSearch (cols q) (data q) r].
Proof.
  intros Hq Hok Hb Hr.
  destruct (built_handle _ Hok Hb) as (h & Hh).
  exists h, (world_ranged h q r w).
  split; [exact Hh|].
  split; [now apply SearchRadius_accepts|].
  split; [reflexivity|]. split; [reflexivity|]. split; [|reflexivity].
  unfold world_ranged. cbn [distance2 indices].
  now destruct (IndexFlatL2_range_search h (cols q) (data q) r
                  (distance2 w) (indices w)).
Qed.

(** *** Searches are read-only on the index *)

Lemma SearchKNN_frame (q : MatrixXd) (k : Z) (w : World) :
  handle_ok (this w) ->
  exists v w', SearchKNN q k w = Returns v w' /\ this w' = this w.
Proof.
  intros Hok. run.
  destruct (empty (data_ (this w)) || (dataset_size_ (this w) <=? 0)
            || negb (size_t (rows q) =? dimension_ (this w)) || (k <? 0))
    eqn:G.
  - now exists (-1), w.
  - destruct (empty (data_ (this w))) eqn:E; [discriminate G|].
    destruct (index (this w)) as [h|] eqn:Hh.
    + destruct (IndexFlatL2_search h (cols q) (data q) k
                  (distance2 w) (indices w)) as [dis lab].
      eexists _, _. split; reflexivity.
    + exfalso. apply Hok; [|exact Hh]. intros D. now rewrite D in E.
Qed.

Lemma SearchRadius_frame (q : MatrixXd) (r : float) (w : World) :
  handle_ok (this w) ->
  exists v w', SearchRadius q r w = Returns v w' /\ this w' = this w.
Proof.
  intros Hok. run.
  destruct (empty (data_ (this w)) || (dataset_size_ (this w) <=? 0)
            || negb (size_t (rows q) =? dimension_ (this w)))
    eqn:G.
  - now exists (-1), w.
  - destruct (empty (data_ (this w))) eqn:E; [discriminate G|].
    destruct (index (this w)) as [h|] eqn:Hh.
    + destruct (IndexFlatL2_range_search h (cols q) (data q) r
                  (distance2 w) (indices w)) as [dis lab].
      eexists _, _. split; reflexivity.
    + exfalso. apply Hok; [|exact Hh]. intros D. now rewrite D in E.
Qed.

Lemma Search_frame (q : MatrixXd) (p : KDTreeSearchParam) (w : World) :
  handle_ok (this w) ->
  exists v w', Search q p w = Returns v w' /\ this w' = this w.
Proof.
  intros Hok. unfold Search. destruct (GetSearchType p).
  - now apply SearchKNN_frame.
  - now apply SearchRadius_frame.
  - now exists (-1), w.
  - now exists (-1), w.
Qed.

(** The invariant holds in every reachable world. *)
Lemma reachable_handle_ok (w : World) : reachable w -> handle_ok (this w).
Proof.
  induction 1 as [i d|w i d _ IH|m w w' b _ IH E|m w w' b _ IH E
                  |g w w' b _ IH E|f w w' b _ IH E
                  |q p w w' v _ IH E|q k w w' v _ IH E|q r w w' v _ IH E].
  - apply handle_ok_default.
  - exact IH.
  - destruct (handle_ok_SetRawData m w IH) as (b0 & w0 & E0 & H0).
    rewrite E0 in E. now injection E as _ <-.
  - rewrite SetMatrixData_SetRawData in E.
    destruct (handle_ok_SetRawData m w IH) as (b0 & w0 & E0 & H0).
    rewrite E0 in E. now injection E as _ <-.
  - destruct (handle_ok_SetGeometry g w IH) as (b0 & w0 & E0 & H0).
    rewrite E0 in E. now injection E as _ <-.
  - destruct (handle_ok_SetFeature f w IH) as (b0 & w0 & E0 & H0).
    rewrite E0 in E. now injection E as _ <-.
  - destruct (Search_frame q p w IH) as (v0 & w0 & E0 & H0).
    rewrite E0 in E. injection E as _ <-. now rewrite H0.
  - destruct (SearchKNN_frame q k w IH) as (v0 & w0 & E0 & H0).
    rewrite E0 in E. injection E as _ <-. now rewrite H0.
  - destruct (SearchRadius_frame q r w IH) as (v0 & w0 & E0 & H0).
    rewrite E0 in E. injection E as _ <-. now rewrite H0.
Qed.

(** C8. On an index that satisfies the class invariant, each of [Search],
    [SearchKNN] and [SearchRadius] returns, and the object it leaves
    ([data_], [index], [dimension_], [dataset_size_]) is the object it was
    called on, whatever the arguments and the value returned. *)
Theorem searches_leave_index_unchanged
        (q : MatrixXd) (p : KDTreeSearchParam) (k : Z) (r : float) (w : World) :
  handle_ok (this w) ->
  (exists v w', Search q p w = Returns v w' /\ this w' = this w) /\
  (exists v w', SearchKNN q k w = Returns v w' /\ this w' = this w) /\
  (exists v w', SearchRadius q r w = Returns v w' /\ this w' = this w).
Proof.
  intros Hok. split; [|split].
  - now apply Search_frame.
  - now apply SearchKNN_frame.
  - now apply SearchRadius_frame.
Qed.

(** *** Ingestion followed by a self-query *)

(** The part of a self-query that does hold: ingesting a well-formed matrix
    with at least one row and one column returns true, and the 1-nearest
    search for any of its columns then passes the guard, runs
    [index->search] on the new handle with that column and [k = 1], and
    returns 1. *)
Lemma ingest_then_knn1_runs (m : MatrixXd) (i : Z) (w : World) :
  wf_matrix m -> 0 < rows m -> 0 < cols m -> 0 <= i < cols m ->
  exists w1 w2 h,
    SetMatrixData m w = Returns true w1 /\
    SetRawData m w = Returns true w1 /\
    index (this w1) = Some h /\
    SearchKNN (col m i) 1 w1 = Returns 1 w2 /\
    w2 = world_searched h (col m i) 1 w1.
Proof.
  intros Hwf Hr Hc Hi.
  destruct (SetRawData_stores_words m w Hwf Hr Hc) as (Hrun & _ & Hb & Hd).
  set (w1 := world_built m w) in *.
  assert (Hh : exists h, index (this w1) = Some h) by (eexists; reflexivity).
  destruct Hh as (h & Hh).
  exists w1, (world_searched h (col m i) 1 w1), h.
  split; [rewrite SetMatrixData_SetRawData; exact Hrun|].
  split; [exact Hrun|]. split; [exact Hh|].
  split; [|reflexivity].
  apply SearchKNN_accepts; try assumption.
  - unfold wf_query, col. cbn [rows]. destruct Hwf as (H & _). exact H.
  - unfold col. cbn [rows]. symmetry. exact Hd.
  - lia.
Qed.

(** Two equal columns give the same query, hence the same answer, whatever
    the index does: for the matrix with twice the column (0.0) the answer
    cannot be the column's own number for both columns. *)
Lemma twin_columns_cannot_both (w : World) :
  ~ (knn1_finds_column twin_matrix 0 w /\ knn1_finds_column twin_matrix 1 w).
Proof.
  intros ((w1 & w2 & dz & H1 & H2 & H3 & _) &
          (w1' & w2' & dz' & H1' & H2' & H3' & _)).
  rewrite H1 in H1'. injection H1' as <-.
  change (col twin_matrix 1) with (col twin_matrix 0) in H2'.
  rewrite H2 in H2'. injection H2' as <-.
  rewrite H3 in H3'. discriminate H3'.
Qed.

(** *** Failed ingestion *)

Lemma no_data_searches_fail (m : MatrixXd) (w : World)
      (q : MatrixXd) (p : KDTreeSearchParam) (k : Z) (r : float) :
  wf_matrix m -> rows m = 0 \/ cols m = 0 ->
  wf_query q -> cols m = 0 \/ 0 < rows q ->
  Search q p (world_no_data m w) = Returns (-1) (world_no_data m w) /\
  SearchKNN q k (world_no_data m w) = Returns (-1) (world_no_data m w) /\
  SearchRadius q r (world_no_data m w) = Returns (-1) (world_no_data m w).
Proof.
  intros Hwf Hz Hq Hc.
  destruct (wf_matrix_sizes m Hwf) as (Er & Ec & _).
  assert (G : dataset_size_ (this (world_no_data m w)) <= 0 \/
              rows q <> dimension_ (this (world_no_data m w))).
  { unfold world_no_data. cbn [this dataset_size_ dimension_].
    rewrite Er, Ec. lia. }
  assert (K : forall k', SearchKNN q k' (world_no_data m w)
                         = Returns (-1) (world_no_data m w))
    by (intros k'; apply SearchKNN_rejects; [exact Hq|tauto]).
  assert (R : forall r', SearchRadius q r' (world_no_data m w)
                         = Returns (-1) (world_no_data m w))
    by (intros r'; apply SearchRadius_rejects; [exact Hq|tauto]).
  split; [|split; [apply K|apply R]].
  unfold Search. destruct (GetSearchType p); [apply K|apply R| |]; reflexivity.
Qed.

(** On an index that was never built, a failed ingestion leaves every
    search failing. *)
Lemma no_data_fresh_searches_fail (m : MatrixXd) (w : World) :
  data_ (this w) = [] -> all_searches_fail (world_no_data m w).
Proof.
  intros Hd q p k r Hq.
  assert (K : forall k', SearchKNN q k' (world_no_data m w)
                         = Returns (-1) (world_no_data m w))
    by (intros k'; apply SearchKNN_rejects; [exact Hq|now left]).
  assert (R : forall r', SearchRadius q r' (world_no_data m w)
                         = Returns (-1) (world_no_data m w))
    by (intros r'; apply SearchRadius_rejects; [exact Hq|now left]).
  split; [|split; [apply K|apply R]].
  unfold Search. destruct (GetSearchType p); [apply K|apply R| |]; reflexivity.
Qed.

(** C9 (amended). On a built index, re-ingesting a well-formed matrix with
    0 rows or 0 columns returns false after storing the matrix's row and
    column counts in [dimension_] and [dataset_size_]; [data_] and [index]
    stay in place.  Afterwards every search returns -1 when the matrix had
    0 columns, and every search with a query of at least one row returns -1
    in any case. *)
Theorem failed_reingest_stores_shape (m : MatrixXd) (w : World) :
  wf_matrix m -> built (this w) -> rows m = 0 \/ cols m = 0 ->
  exists w',
    SetRawData m w = Returns false w' /\
    dimension_ (this w') = rows m /\ dataset_size_ (this w') = cols m /\
    data_ (this w') = data_ (this w) /\ index (this w') = index (this w) /\
    forall (q : MatrixXd) (p : KDTreeSearchParam) (k : Z) (r : float),
      wf_query q -> cols m = 0 \/ 0 < rows q ->
      Search q p w' = Returns (-1) w' /\
      SearchKNN q k w' = Returns (-1) w' /\
      SearchRadius q r w' = Returns (-1) w'.
Proof.
  intros Hwf _ Hz.
  destruct (wf_matrix_sizes m Hwf) as (Er & Ec & _).
  exists (world_no_data m w).
  split; [apply SetRawData_no_data; rewrite Er, Ec; exact Hz|].
  split; [exact Er|]. split; [exact Ec|].
  split; [reflexivity|]. split; [reflexivity|].
  intros q p k r Hq Hc. now apply no_data_searches_fail.
Qed.

(** C3 (evaluation at the failing input). Build from the 1x1 matrix (1.0),
    then ingest a matrix of 0 rows and 1 column: ingestion returns false
    and keeps the old store and handle.  A 1-nearest search with a query of
    0 rows then passes the guard, calls [index->search] on the old handle
    and returns 1, not -1. *)
Theorem zero_row_reingest_then_search_runs (w : World) :
  exists w1 w2 w3,
    SetRawData unit_matrix w = Returns true w1 /\
    SetRawData matrix_0x1 w1 = Returns false w2 /\
    data_ (this w2) = data_ (this w1) /\
    index (this w2) = index (this w1) /\
    data_ (this w2) <> [] /\
    SearchKNN matrix_0x1 1 w2 = Returns 1 w3 /\
    log w3 = log w2 ++ [FaissSearch 1 [] 1].
Proof.
  destruct (SetRawData_stores_words unit_matrix w wf_unit_matrix)
    as (Hrun & _ & (Hne & _) & _); [reflexivity|reflexivity|].
  set (w1 := world_built unit_matrix w) in *.
  set (w2 := world_no_data matrix_0x1 w1).
  assert (Hh : exists h, index (this w2) = Some h) by (eexists; reflexivity).
  destruct Hh as (h & Hh).
  exists w1, w2, (world_searched h matrix_0x1 1 w2).
  split; [exact Hrun|].
  split; [apply SetRawData_no_data; now left|].
  split; [reflexivity|]. split; [reflexivity|]. split; [exact Hne|].
  split; [|reflexivity].
  apply SearchKNN_accepts.
  - unfold wf_query. cbn. lia.
  - split; [exact Hne|reflexivity].
  - reflexivity.
  - lia.
  - exact Hh.
Qed.

End Properties.

(** ** Concrete runs on the reference index *)

Lemma World_unit_built :
  SetRawData unit_matrix World_presized = Returns true World_unit /\
  built (this World_unit) /\ handle_ok (this World_unit).
Proof.
  split; [vm_compute; reflexivity|]. split.
  - vm_compute. split; [discriminate|reflexivity].
  - vm_compute. intros _. discriminate.
Qed.

Lemma World_twins_built :
  SetRawData twin_matrix World_presized = Returns true World_twins /\
  built (this World_twins) /\ handle_ok (this World_twins).
Proof.
  split; [vm_compute; reflexivity|]. split.
  - vm_compute. split; [discriminate|reflexivity].
  - vm_compute. intros _. discriminate.
Qed.

Lemma wf_distinct_matrix : wf_matrix distinct_matrix.
Proof. unfold wf_matrix, distinct_matrix. cbn. lia. Qed.

(** C2 (evaluation at the failing input). The 1x2 matrix of the distinct
    columns (1.0) and (2.0) is ingested with success, but the store, and
    with it the index, holds the two halves of 1.0, that is 0.0f and
    1.875f, where the downcast columns are 1.0f and 2.0f.  The 1-nearest
    search for column 1 then returns 1 and reports index 0: the self-query
    does not report the column's own index. *)
Theorem self_query_of_distinct_columns_misses :
  wf_matrix distinct_matrix /\ 0 < rows distinct_matrix /\
  0 <= 1 < cols distinct_matrix /\
  map double_to_float (data distinct_matrix) = [onef; twof] /\
  (exists w1 w2,
     SetRawData distinct_matrix World_presized = Returns true w1 /\
     data_ (this w1) = [0; one_875f] /\
     index (this w1)
     = Some (Reference.mkFlat 1 2 [0; one_875f]) /\
     SearchKNN (col distinct_matrix 1) 1 w1 = Returns 1 w2 /\
     indices w2 = [0] /\ distance2 w2 = [0]) /\
  ~ knn1_finds_column distinct_matrix 1 World_presized.
Proof.
  split; [exact wf_distinct_matrix|]. split; [reflexivity|].
  split; [cbn; lia|]. split; [vm_compute; reflexivity|]. split.
  - eexists. eexists.
    split; [vm_compute; reflexivity|]. split; [reflexivity|].
    split; [reflexivity|]. split; [vm_compute; reflexivity|].
    split; reflexivity.
  - intros (w1 & w2 & dz & H1 & H2 & H3 & _).
    vm_compute in H1. injection H1 as <-.
    vm_compute in H2. injection H2 as <-.
    discriminate H3.
Qed.

Lemma twins_knn2_run :
  SearchKNN zero_query 2 World_twins_marked
  = Returns 2 (mkWorld (this World_twins) [0; 1] [0; 0]
                       (log World_twins ++ [FaissSearch 1 [0] 2])).
Proof. vm_compute. reflexivity. Qed.

Lemma twins_range_runs :
  SearchRadius zero_query minus_onef World_twins_marked
  = Returns 1 (mkWorld (this World_twins) [7; 7] [onef; onef]
                       (log World_twins
                        ++ [FaissRangeSearch 1 [0] minus_onef])) /\
  SearchRadius zero_query onef World_twins_marked
  = Returns 1 (mkWorld (this World_twins) [0; 1] [0; 0]
                       (log World_twins ++ [FaissRangeSearch 1 [0] onef])).
Proof. split; vm_compute; reflexivity. Qed.

Lemma wf_matrix_3x0 : wf_matrix matrix_3x0.
Proof. unfold wf_matrix, matrix_3x0. cbn. lia. Qed.

Lemma wf_zero_query : wf_query zero_query.
Proof. unfold wf_query, zero_query. cbn. lia. Qed.

(** C4 on an image handed to a built index. *)
Lemma SetGeometry_unsupported_witness :
  supported_geometry (GetGeometryType (mkGeometry Image [] [])) = false /\
  SetGeometry (mkGeometry Image [] []) World_unit
  = Returns false (world_warned World_unit) /\
  this (world_warned World_unit) = this World_unit /\
  log (world_warned World_unit)
  = log World_unit ++ [Warning unsupported_warning].
Proof.
  split; [reflexivity|].
  apply (SetGeometry_unsupported (mkGeometry Image [] []) World_unit).
  reflexivity.
Defined.

(** C6 on the twin index with marked caller vectors: the 2-nearest search
    around 0.0 returns 2 and leaves the two neighbours in the vectors. *)
Lemma SearchKNN_contract_witness :
  wf_query zero_query /\ handle_ok (this World_twins_marked) /\
  built (this World_twins_marked) /\
  rows zero_query = dimension_ (this World_twins_marked) /\ 0 <= 2 /\
  SearchKNN zero_query 2 World_twins_marked
  = Returns 2 (mkWorld (this World_twins) [0; 1] [0; 0]
                       (log World_twins ++ [FaissSearch 1 [0] 2])) /\
  exists h w',
    index (this World_twins_marked) = Some h /\
    SearchKNN zero_query 2 World_twins_marked = Returns 2 w' /\
    w' = world_searched h zero_query 2 World_twins_marked /\
    this w' = this World_twins_marked /\
    (distance2 w', indices w')
    = IndexFlatL2_search h (cols zero_query) (data zero_query) 2
                         (distance2 World_twins_marked)
                         (indices World_twins_marked) /\
    log w' = log World_twins_marked
             ++ [FaissSearch (cols zero_query) (data zero_query) 2].
Proof.
  destruct World_twins_built as (_ & Hb & Hok).
  assert (Hk : 0 <= 2) by lia.
  split; [exact wf_zero_query|]. split; [exact Hok|]. split; [exact Hb|].
  split; [reflexivity|]. split; [exact Hk|]. split; [exact twins_knn2_run|].
  apply (proj2 (SearchKNN_contract zero_query 2 World_twins_marked
                  wf_zero_query Hok));
    [exact Hb|reflexivity|exact Hk].
Defined.

(** C7 on the twin index: the radius search around 0.0 with radius 1.0f
    returns 1 and the 2-nearest search returns 2. *)
Lemma SearchRadius_contract_witness :
  wf_query zero_query /\ handle_ok (this World_twins) /\
  built (this World_twins) /\
  rows zero_query = dimension_ (this World_twins) /\
  (exists w', SearchRadius zero_query onef World_twins = Returns 1 w') /\
  (0 <= 2 -> exists w', SearchKNN zero_query 2 World_twins = Returns 2 w').
Proof.
  destruct World_twins_built as (_ & Hb & Hok).
  split; [exact wf_zero_query|]. split; [exact Hok|]. split; [exact Hb|].
  split; [reflexivity|].
  apply (proj2 (SearchRadius_contract zero_query onef 2 World_twins
                  wf_zero_query Hok));
    [exact Hb|reflexivity].
Defined.

(** C10 on the twin index with marked caller vectors and the radius
    -1.0f: the range search finds nothing and the call returns 1; with the
    radius 1.0f it finds both points. *)
Lemma SearchRadius_any_radius_witness :
  wf_query zero_query /\ handle_ok (this World_twins_marked) /\
  built (this World_twins_marked) /\
  rows zero_query = dimension_ (this World_twins_marked) /\
  (SearchRadius zero_query minus_onef World_twins_marked
   = Returns 1 (mkWorld (this World_twins) [7; 7] [onef; onef]
                        (log World_twins
                         ++ [FaissRangeSearch 1 [0] minus_onef])) /\
   SearchRadius zero_query onef World_twins_marked
   = Returns 1 (mkWorld (this World_twins) [0; 1] [0; 0]
                        (log World_twins ++ [FaissRangeSearch 1 [0] onef]))) /\
  exists h w',
    index (this World_twins_marked) = Some h /\
    SearchRadius zero_query minus_onef World_twins_marked = Returns 1 w' /\
    w' = world_ranged h zero_query minus_onef World_twins_marked /\
    this w' = this World_twins_marked /\
    (distance2 w', indices w')
    = IndexFlatL2_range_search h (cols zero_query) (data zero_query)
                               minus_onef
                               (distance2 World_twins_marked)
                               (indices World_twins_marked) /\
    log w' = log World_twins_marked
             ++ [FaissRangeSearch (cols zero_query) (data zero_query)
                                  minus_onef].
Proof.
  destruct World_twins_built as (_ & Hb & Hok).
  split; [exact wf_zero_query|]. split; [exact Hok|]. split; [exact Hb|].
  split; [reflexivity|]. split; [exact twins_range_runs|].
  apply (SearchRadius_any_radius zero_query minus_onef World_twins_marked
           wf_zero_query Hok Hb).
  reflexivity.
Defined.

(** C8 on the twin index. *)
Lemma searches_leave_index_unchanged_witness :
  handle_ok (this World_twins) /\
  (exists v w', Search zero_query (mkParam Knn 1 one) World_twins
                = Returns v w' /\ this w' = this World_twins) /\
  (exists v w', SearchKNN zero_query 1 World_twins = Returns v w' /\
                this w' = this World_twins) /\
  (exists v w', SearchRadius zero_query onef World_twins = Returns v w' /\
                this w' = this World_twins).
Proof.
  destruct World_twins_built as (_ & _ & Hok).
  split; [exact Hok|].
  apply (searches_leave_index_unchanged zero_query (mkParam Knn 1 one) 1 onef
           World_twins Hok).
Defined.

(** C9 (counterexample). Re-ingesting a 3x0 matrix into the index built from
    the 1x1 matrix (1.0) leaves [dimension_] at 3, not 0. *)
Lemma reingest_3x0_keeps_row_count :
  SetRawData unit_matrix World_presized = Returns true World_unit /\
  built (this World_unit) /\
  wf_matrix matrix_3x0 /\ cols matrix_3x0 = 0 /\
  ~ reingest_zeroes matrix_3x0 World_unit.
Proof.
  destruct World_unit_built as (Hrun & Hb & _).
  split; [exact Hrun|]. split; [exact Hb|].
  split; [exact wf_matrix_3x0|]. split; [reflexivity|].
  intros (w' & H & Hd & _).
  vm_compute in H. injection H as <-.
  discriminate Hd.
Qed.

(** The amended C9 on the unit index and a 3x0 matrix. *)
Lemma failed_reingest_stores_shape_witness :
  wf_matrix matrix_3x0 /\ built (this World_unit) /\
  (rows matrix_3x0 = 0 \/ cols matrix_3x0 = 0) /\
  exists w',
    SetRawData matrix_3x0 World_unit = Returns false w' /\
    dimension_ (this w') = rows matrix_3x0 /\
    dataset_size_ (this w') = cols matrix_3x0 /\
    data_ (this w') = data_ (this World_unit) /\
    index (this w') = index (this World_unit) /\
    forall (q : MatrixXd) (p : KDTreeSearchParam) (k : Z) (r : float),
      wf_query q -> cols matrix_3x0 = 0 \/ 0 < rows q ->
      Search q p w' = Returns (-1) w' /\
      SearchKNN q k w' = Returns (-1) w' /\
      SearchRadius q r w' = Returns (-1) w'.
Proof.
  destruct World_unit_built as (_ & Hb & _).
  assert (Hz : rows matrix_3x0 = 0 \/ cols matrix_3x0 = 0) by (right; reflexivity).
  split; [exact wf_matrix_3x0|]. split; [exact Hb|]. split; [exact Hz|].
  apply (failed_reingest_stores_shape matrix_3x0 World_unit wf_matrix_3x0 Hb Hz).
Defined.

(** ** Further properties of ingestion, search and construction *)

Section Coverage.

Context {IndexFlatL2 : Type} {backend : FlatIndex IndexFlatL2}.

Local Abbreviation World := (@World IndexFlatL2).

(** *** The two ways out of [SetRawData] *)

Lemma SetRawData_cases (m : MatrixXd) (w : World) :
  (SetRawData m w = Returns false (world_no_data m w) /\
   (size_t (rows m) = 0 \/ size_t (cols m) = 0)) \/
  (SetRawData m w = Returns true (world_built m w) /\
   size_t (rows m) <> 0 /\ size_t (cols m) <> 0).
Proof.
  destruct (Z.eq_dec (size_t (rows m)) 0) as [Er|Er].
  - left. split; [apply SetRawData_no_data|]; now left.
  - destruct (Z.eq_dec (size_t (cols m)) 0) as [Ec|Ec].
    + left. split; [apply SetRawData_no_data|]; now right.
    + right. split; [now apply SetRawData_some_data|now split].
Qed.

Lemma SetRawData_false_inv (m : MatrixXd) (w w' : World) :
  SetRawData m w = Returns false w' -> w' = world_no_data m w.
Proof.
  intros E. destruct (SetRawData_cases m w) as [(E0 & _)|(E0 & _)];
    rewrite E0 in E; [now injection E as <-|discriminate E].
Qed.

Lemma SetRawData_true_inv (m : MatrixXd) (w w' : World) :
  SetRawData m w = Returns true w' ->
  w' = world_built m w /\ size_t (rows m) <> 0 /\ size_t (cols m) <> 0.
Proof.
  intros E. destruct (SetRawData_cases m w) as [(E0 & _)|(E0 & Hr & Hc)];
    rewrite E0 in E; [discriminate E|].
  injection E as <-. now repeat split.
Qed.

(** [SetGeometry] is [SetRawData] on the 3-row matrix of the positions for
    a supported type, and a warning otherwise. *)
Lemma SetGeometry_cases (g : Geometry) (w : World) :
  (supported_geometry (GetGeometryType g) = true /\
   SetGeometry g w
   = SetRawData (mkMatrix 3 (Z.of_nat (length (positions g)))
                          (doubles_of_points (positions g))) w) \/
  (supported_geometry (GetGeometryType g) = false /\
   SetGeometry g w = Returns false (world_warned w)).
Proof.
  unfold SetGeometry, positions.
  destruct (GetGeometryType g); cbn [supported_geometry];
    (left; split; reflexivity) || (right; split; reflexivity).
Qed.

Lemma length_doubles_of_points (ps : list Vector3d) :
  length (doubles_of_points ps) = (3 * length ps)%nat.
Proof.
  induction ps as [|[[x y] z] ps IH]; [reflexivity|].
  cbn [doubles_of_points flat_map app length] in *.
  unfold doubles_of_points in IH. rewrite IH. lia.
Qed.

Lemma wf_positions (ps : list Vector3d) :
  24 * Z.of_nat (length ps) < 2 ^ 64 ->
  wf_matrix (mkMatrix 3 (Z.of_nat (length ps)) (doubles_of_points ps)).
Proof.
  intros Hb. unfold wf_matrix. cbn [rows cols data].
  rewrite length_doubles_of_points.
  change (2 ^ 64) with 18446744073709551616 in *.
  change (2 ^ 63) with 9223372036854775808. lia.
Qed.

(** *** What a successful ingestion stores *)

(** X1. Ingesting a well-formed matrix with at least one row and one column
    returns true and leaves [dimension_] and [dataset_size_] at its row and
    column counts and a store of exactly [rows * cols] floats, which are the
    first [rows * cols] 32-bit words of the source's memory: the low and the
    high half of each double, in order. *)
Theorem ingest_stores_source_words (m : MatrixXd) (w : World) :
  wf_matrix m -> 0 < rows m -> 0 < cols m ->
  exists w',
    SetRawData m w = Returns true w' /\
    dimension_ (this w') = rows m /\
    dataset_size_ (this w') = cols m /\
    Z.of_nat (length (data_ (this w'))) = rows m * cols m /\
    data_ (this w')
    = firstn (Z.to_nat (rows m * cols m)) (flat_map words_of_double (data m)).
Proof.
  intros Hwf Hr Hc.
  destruct (SetRawData_stores_words m w Hwf Hr Hc) as (Hrun & Hst & _ & Hd).
  destruct (wf_matrix_sizes m Hwf) as (_ & Ec & _).
  exists (world_built m w).
  split; [exact Hrun|]. split; [exact Hd|]. split; [exact Ec|].
  split; [|exact Hst].
  apply length_ingested. exact Hwf.
Qed.

Lemma words_prefix (h n : nat) (l : list double) :
  (n <= 2 * h)%nat ->
  firstn n (flat_map words_of_double l)
  = firstn n (flat_map words_of_double (firstn h l)).
Proof.
  revert n l. induction h as [|h IH]; intros n l Hn.
  - replace n with 0%nat by lia. reflexivity.
  - destruct l as [|x l]; [reflexivity|].
    destruct n as [|[|n]]; [reflexivity|reflexivity|].
    cbn [firstn flat_map words_of_double app]. do 2 f_equal.
    apply IH. lia.
Qed.

(** X2. The store depends on the first half of the source only: two
    well-formed matrices of the same non-empty shape that agree on their
    first [h] coefficients, where [2 * h] is at least [rows * cols], leave
    the same index object, whatever their remaining coefficients are. *)
Theorem ingest_reads_first_half_only (m1 m2 : MatrixXd) (h : nat) (w : World) :
  wf_matrix m1 -> wf_matrix m2 ->
  rows m1 = rows m2 -> cols m1 = cols m2 ->
  0 < rows m1 -> 0 < cols m1 ->
  rows m1 * cols m1 <= 2 * Z.of_nat h ->
  firstn h (data m1) = firstn h (data m2) ->
  exists w1 w2,
    SetRawData m1 w = Returns true w1 /\
    SetRawData m2 w = Returns true w2 /\
    this w1 = this w2.
Proof.
  intros Hwf1 Hwf2 Er Ec Hr Hc Hh Hd.
  destruct (SetRawData_stores_words m1 w Hwf1 Hr Hc) as (Hrun1 & _).
  destruct (SetRawData_stores_words m2 w Hwf2) as (Hrun2 & _); [lia|lia|].
  exists (world_built m1 w), (world_built m2 w).
  split; [exact Hrun1|]. split; [exact Hrun2|].
  assert (Es : ingested m1 (data_ (this w)) = ingested m2 (data_ (this w))).
  { rewrite !ingested_words by assumption. rewrite <- Er, <- Ec.
    rewrite (words_prefix h _ (data m1)) by lia.
    rewrite (words_prefix h _ (data m2)) by lia.
    now rewrite Hd. }
  unfold world_built. cbn [this]. rewrite Es, Er, Ec. reflexivity.
Qed.

(** X3. A successful ingestion replaces the index object entirely: for a
    well-formed matrix with at least one row and one column, the object
    left behind is the same whatever the index held before. *)
Theorem ingest_forgets_previous_build (m : MatrixXd) (w1 w2 : World) :
  wf_matrix m -> 0 < rows m -> 0 < cols m ->
  exists w1' w2',
    SetRawData m w1 = Returns true w1' /\
    SetRawData m w2 = Returns true w2' /\
    this w1' = this w2'.
Proof.
  intros Hwf Hr Hc.
  destruct (SetRawData_stores_words m w1 Hwf Hr Hc) as (Hrun1 & _).
  destruct (SetRawData_stores_words m w2 Hwf Hr Hc) as (Hrun2 & _).
  exists (world_built m w1), (world_built m w2).
  split; [exact Hrun1|]. split; [exact Hrun2|].
  unfold world_built. cbn [this].
  now rewrite (ingested_words m (data_ (this w1))),
              (ingested_words m (data_ (this w2))).
Qed.

(** *** What the boolean of an ingestion tells *)

Lemma failed_ingestion_shape (w : World) (s : KnnFaiss) (msg : string) :
  data_ s = data_ (this w) -> index s = index (this w) ->
  let w' := mkWorld s (indices w) (distance2 w) (log w ++ [Warning msg]) in
  data_ (this w') = data_ (this w) /\ index (this w') = index (this w) /\
  indices w' = indices w /\ distance2 w' = distance2 w /\
  exists msg', log w' = log w ++ [Warning msg'].
Proof.
  intros Hd Hi. cbn. repeat split; try assumption. now exists msg.
Qed.

(** X4. Whichever entry point is used, an ingestion that returns false has
    left the store, the handle and the caller's vectors as they were, has
    not called the external index, and has logged exactly one warning. *)
Theorem failed_ingestion_keeps_store (w w' : World) :
  (exists m, SetRawData m w = Returns false w') \/
  (exists m, SetMatrixData m w = Returns false w') \/
  (exists g, SetGeometry g w = Returns false w') \/
  (exists f, SetFeature f w = Returns false w') ->
  data_ (this w') = data_ (this w) /\ index (this w') = index (this w) /\
  indices w' = indices w /\ distance2 w' = distance2 w /\
  exists msg, log w' = log w ++ [Warning msg].
Proof.
  assert (R : forall m, SetRawData m w = Returns false w' ->
    data_ (this w') = data_ (this w) /\ index (this w') = index (this w) /\
    indices w' = indices w /\ distance2 w' = distance2 w /\
    exists msg, log w' = log w ++ [Warning msg]).
  { intros m E. rewrite (SetRawData_false_inv m w w' E).
    now apply failed_ingestion_shape. }
  intros [(m & E)|[(m & E)|[(g & E)|(f & E)]]].
  - now apply (R m).
  - rewrite SetMatrixData_SetRawData in E. now apply (R m).
  - destruct (SetGeometry_cases g w) as [(_ & E0)|(_ & E0)]; rewrite E0 in E.
    + now apply (R _ E).
    + injection E as <-. now apply failed_ingestion_shape.
  - unfold SetFeature in E. rewrite SetMatrixData_SetRawData in E.
    now apply (R _ E).
Qed.

Lemma built_shape (m : MatrixXd) (w : World) :
  size_t (rows m) <> 0 -> size_t (cols m) <> 0 ->
  let s := this (world_built m w) in
  dimension_ s <> 0 /\ dataset_size_ s <> 0 /\
  index s = Some (IndexFlatL2_add (IndexFlatL2_new (dimension_ s))
                                  (dataset_size_ s) (data_ s)) /\
  indices (world_built m w) = indices w /\
  distance2 (world_built m w) = distance2 w /\
  log (world_built m w)
  = log w ++ [FaissNew (dimension_ s); FaissAdd (dataset_size_ s) (data_ s)].
Proof.
  intros Hr Hc. unfold world_built.
  cbn [this dimension_ dataset_size_ index data_ indices distance2 log].
  repeat split; try assumption. now rewrite <- app_assoc.
Qed.

(** X5. Whichever entry point is used, an ingestion that returns true has
    made a new external index for the stored [dimension_] and filled it
    with [dataset_size_] vectors taken from the new store, in these two
    calls and no other; both sizes are non-zero, and the caller's vectors
    are as they were. *)
Theorem successful_ingestion_rebuilds_handle (w w' : World) :
  (exists m, SetRawData m w = Returns true w') \/
  (exists m, SetMatrixData m w = Returns true w') \/
  (exists g, SetGeometry g w = Returns true w') \/
  (exists f, SetFeature f w = Returns true w') ->
  dimension_ (this w') <> 0 /\ dataset_size_ (this w') <> 0 /\
  index (this w')
  = Some (IndexFlatL2_add (IndexFlatL2_new (dimension_ (this w')))
                          (dataset_size_ (this w')) (data_ (this w'))) /\
  indices w' = indices w /\ distance2 w' = distance2 w /\
  log w' = log w ++ [FaissNew (dimension_ (this w'));
                     FaissAdd (dataset_size_ (this w')) (data_ (this w'))].
Proof.
  assert (R : forall m, SetRawData m w = Returns true w' ->
    dimension_ (this w') <> 0 /\ dataset_size_ (this w') <> 0 /\
    index (this w')
    = Some (IndexFlatL2_add (IndexFlatL2_new (dimension_ (this w')))
                            (dataset_size_ (this w')) (data_ (this w'))) /\
    indices w' = indices w /\ distance2 w' = distance2 w /\
    log w' = log w ++ [FaissNew (dimension_ (this w'));
                       FaissAdd (dataset_size_ (this w')) (data_ (this w'))]).
  { intros m E. destruct (SetRawData_true_inv m w w' E) as (-> & Hr & Hc).
    now apply built_shape. }
  intros [(m & E)|[(m & E)|[(g & E)|(f & E)]]].
  - now apply (R m).
  - rewrite SetMatrixData_SetRawData in E. now apply (R m).
  - destruct (SetGeometry_cases g w) as [(_ & E0)|(_ & E0)]; rewrite E0 in E.
    + now apply (R _ E).
    + discriminate E.
  - unfold SetFeature in E. rewrite SetMatrixData_SetRawData in E.
    now apply (R _ E).
Qed.

(** *** What the value of a search tells *)

Lemma SearchKNN_inv (q : MatrixXd) (k : Z) (w w' : World) (v : Z) :
  SearchKNN q k w = Returns v w' ->
  (v = -1 /\ w' = w) \/
  (0 <= v /\ v = k /\
   exists h, index (this w) = Some h /\ w' = world_searched h q k w).
Proof.
  unfold SearchKNN, index_search, get_this, bind, ret.
  destruct (empty (data_ (this w)) || (dataset_size_ (this w) <=? 0)
            || negb (size_t (rows q) =? dimension_ (this w)) || (k <? 0))
    eqn:G.
  - intros E. injection E as <- <-. now left.
  - apply orb_false_iff in G. destruct G as (_ & Hk). apply Z.ltb_ge in Hk.
    destruct (index (this w)) as [h|]; [|discriminate].
    destruct (IndexFlatL2_search h (cols q) (data q) k
                (distance2 w) (indices w)) as [dis lab] eqn:R.
    intros E. injection E as <- <-. right.
    split; [exact Hk|]. split; [reflexivity|]. exists h.
    split; [reflexivity|]. unfold world_searched. now rewrite R.
Qed.

Lemma SearchRadius_inv (q : MatrixXd) (r : float) (w w' : World) (v : Z) :
  SearchRadius q r w = Returns v w' ->
  (v = -1 /\ w' = w) \/
  (v = 1 /\
   exists h, index (this w) = Some h /\ w' = world_ranged h q r w).
Proof.
  unfold SearchRadius, index_range_search, get_this, bind, ret.
  destruct (empty (data_ (this w)) || (dataset_size_ (this w) <=? 0)
            || negb (size_t (rows q) =? dimension_ (this w)))
    eqn:G.
  - intros E. injection E as <- <-. now left.
  - destruct (index (this w)) as [h|]; [|discriminate].
    destruct (IndexFlatL2_range_search h (cols q) (data q) r
                (distance2 w) (indices w)) as [dis lab] eqn:R.
    intros E. injection E as <- <-. right.
    split; [reflexivity|]. exists h.
    split; [reflexivity|]. unfold world_ranged. now rewrite R.
Qed.

(** A search either left the world alone or appended one search event
    while the handle was live. *)
Lemma Search_inv (q : MatrixXd) (p : KDTreeSearchParam) (w w' : World) (v : Z) :
  Search q p w = Returns v w' ->
  (v = -1 /\ w' = w) \/
  (0 <= v /\ this w' = this w /\ index (this w) <> None /\
   exists e, search_event e = true /\ log w' = log w ++ [e]).
Proof.
  unfold Search. destruct (GetSearchType p); intros E.
  - destruct (SearchKNN_inv _ _ _ _ _ E) as [H|(Hv & _ & h & Hh & ->)];
      [now left|right].
    split; [exact Hv|]. split; [reflexivity|].
    split; [rewrite Hh; discriminate|]. eexists. split; [|reflexivity].
    reflexivity.
  - destruct (SearchRadius_inv _ _ _ _ _ E) as [H|(Hv & h & Hh & ->)];
      [now left|right].
    split; [lia|]. split; [reflexivity|].
    split; [rewrite Hh; discriminate|]. eexists. split; [|reflexivity].
    reflexivity.
  - injection E as <- <-. now left.
  - injection E as <- <-. now left.
Qed.

(** What a search that returned has done: nothing, or one run of the
    external index on the live handle. *)
Lemma search_call_inv
      (q : MatrixXd) (p : KDTreeSearchParam) (k : Z) (r : float)
      (w w' : World) (v : Z) :
  Search q p w = Returns v w' \/
  SearchKNN q k w = Returns v w' \/
  SearchRadius q r w = Returns v w' ->
  (v = -1 /\ w' = w) \/
  (0 <= v /\
   exists h, index (this w) = Some h /\
     (w' = world_searched h q v w \/
      (v = 1 /\
       (w' = world_ranged h q r w \/
        w' = world_ranged h q (double_to_float (radius_ p)) w)))).
Proof.
  assert (K : forall k0, SearchKNN q k0 w = Returns v w' ->
    (v = -1 /\ w' = w) \/
    (0 <= v /\
     exists h, index (this w) = Some h /\
       (w' = world_searched h q v w \/
        (v = 1 /\
         (w' = world_ranged h q r w \/
          w' = world_ranged h q (double_to_float (radius_ p)) w))))).
  { intros k0 E.
    destruct (SearchKNN_inv _ _ _ _ _ E) as [H|(Hv & -> & h & Hh & ->)];
      [now left|right].
    split; [exact Hv|]. exists h. split; [exact Hh|]. now left. }
  assert (R : forall r0, r0 = r \/ r0 = double_to_float (radius_ p) ->
    SearchRadius q r0 w = Returns v w' ->
    (v = -1 /\ w' = w) \/
    (0 <= v /\
     exists h, index (this w) = Some h /\
       (w' = world_searched h q v w \/
        (v = 1 /\
         (w' = world_ranged h q r w \/
          w' = world_ranged h q (double_to_float (radius_ p)) w))))).
  { intros r0 Hr0 E.
    destruct (SearchRadius_inv _ _ _ _ _ E) as [H|(-> & h & Hh & ->)];
      [now left|right].
    split; [lia|]. exists h. split; [exact Hh|]. right.
    split; [reflexivity|]. destruct Hr0 as [-> | ->]; [now left|now right]. }
  intros [E|[E|E]].
  - unfold Search in E. destruct (GetSearchType p).
    + now apply (K (knn_ p)).
    + apply (R (double_to_float (radius_ p))); [now right|exact E].
    + injection E as <- <-. now left.
    + injection E as <- <-. now left.
  - now apply (K k).
  - apply (R r); [now left|exact E].
Qed.

(** X6. The value returned by [Search], [SearchKNN] or [SearchRadius] tells
    whether the external index was called: a search that returned -1 left
    the whole world, the caller's vectors included, as it was; any other
    value [v] is non-negative, the handle was live, and the world left is
    the one a single run of the external index on that handle gives: its
    fixed-count search with count [v], or (then [v = 1]) its range search
    with the radius of the call, on the query's storage and the caller's
    two vectors. *)
Theorem search_value_tells_call
        (q : MatrixXd) (p : KDTreeSearchParam) (k : Z) (r : float)
        (w w' : World) (v : Z) :
  Search q p w = Returns v w' \/
  SearchKNN q k w = Returns v w' \/
  SearchRadius q r w = Returns v w' ->
  (v = -1 /\ w' = w) \/
  (0 <= v /\
   exists h, index (this w) = Some h /\
     (w' = world_searched h q v w \/
      (v = 1 /\
       (w' = world_ranged h q r w \/
        w' = world_ranged h q (double_to_float (radius_ p)) w)))).
Proof.
  intros H. destruct (search_call_inv q p k r w w' v H) as [H0|(Hv & h & Hh & Hw)].
  - now left.
  - right. split; [exact Hv|]. now exists h.
Qed.

(** *** Invariants of reachable worlds *)

Lemma paired_no_data (m : MatrixXd) (w : World) :
  size_t (rows m) = 0 \/ size_t (cols m) = 0 ->
  paired (this (world_no_data m w)).
Proof.
  intros H Hd Hn. unfold world_no_data in Hd, Hn.
  cbn [this dimension_ dataset_size_] in Hd, Hn. tauto.
Qed.

Lemma paired_SetRawData (m : MatrixXd) (w w' : World) (b : bool) :
  SetRawData m w = Returns b w' -> paired (this w').
Proof.
  intros E. destruct (SetRawData_cases m w) as [(E0 & H)|(E0 & Hr & Hc)];
    rewrite E0 in E; injection E as _ <-.
  - now apply paired_no_data.
  - intros _ _. now destruct (built_shape m w Hr Hc) as (_ & _ & Hi & _).
Qed.

Lemma paired_SetGeometry (g : Geometry) (w w' : World) (b : bool) :
  paired (this w) -> SetGeometry g w = Returns b w' -> paired (this w').
Proof.
  intros Hp E.
  destruct (SetGeometry_cases g w) as [(_ & E0)|(_ & E0)]; rewrite E0 in E.
  - now apply (paired_SetRawData _ _ _ _ E).
  - injection E as _ <-. exact Hp.
Qed.

Lemma reachable_paired (w : World) : reachable w -> paired (this w).
Proof.
  induction 1 as [i d|w i d _ IH|m w w' b _ IH E|m w w' b _ IH E
                  |g w w' b _ IH E|f w w' b _ IH E
                  |q p w w' v _ IH E|q k w w' v _ IH E|q r w w' v _ IH E].
  - intros H. now contradiction H.
  - exact IH.
  - now apply (paired_SetRawData _ _ _ _ E).
  - rewrite SetMatrixData_SetRawData in E.
    now apply (paired_SetRawData _ _ _ _ E).
  - now apply (paired_SetGeometry _ _ _ _ IH E).
  - unfold SetFeature in E. rewrite SetMatrixData_SetRawData in E.
    now apply (paired_SetRawData _ _ _ _ E).
  - destruct (Search_inv _ _ _ _ _ E) as [(_ & ->)|(_ & Ht & _)];
      [exact IH|now rewrite Ht].
  - destruct (SearchKNN_inv _ _ _ _ _ E) as [(_ & ->)|(_ & _ & h & _ & ->)];
      exact IH.
  - destruct (SearchRadius_inv _ _ _ _ _ E) as [(_ & ->)|(_ & h & _ & ->)];
      exact IH.
Qed.

(** X7. In every world reached from a default-constructed index by calls
    of the member functions, a non-empty store comes with a live handle,
    and whenever [dimension_] and [dataset_size_] are both non-zero the
    handle is the external index made for [dimension_] and filled with
    [dataset_size_] vectors from the current store: store and handle never
    go out of step. *)
Theorem reachable_store_and_handle_agree (w : World) :
  reachable w -> handle_ok (this w) /\ paired (this w).
Proof.
  intros H. split; [now apply reachable_handle_ok|now apply reachable_paired].
Qed.

(** *** The index a search runs on *)

(** In a reachable world the handle is null, or it is an index made for a
    non-zero dimension and filled with a non-zero number of vectors from
    the current store. *)
Lemma reachable_handle_built (w : World) :
  reachable w ->
  index (this w) = None \/
  exists d n, d <> 0 /\ n <> 0 /\
    index (this w)
    = Some (IndexFlatL2_add (IndexFlatL2_new d) n (data_ (this w))).
Proof.
  assert (R : forall m (w w' : World) b,
    (index (this w) = None \/
     exists d n, d <> 0 /\ n <> 0 /\
       index (this w)
       = Some (IndexFlatL2_add (IndexFlatL2_new d) n (data_ (this w)))) ->
    SetRawData m w = Returns b w' ->
    index (this w') = None \/
    exists d n, d <> 0 /\ n <> 0 /\
      index (this w')
      = Some (IndexFlatL2_add (IndexFlatL2_new d) n (data_ (this w')))).
  { intros m w0 w' b IH E.
    destruct (SetRawData_cases m w0) as [(E0 & _)|(E0 & Hr & Hc)];
      rewrite E0 in E; injection E as _ <-.
    - exact IH.
    - right. exists (size_t (rows m)), (size_t (cols m)).
      split; [exact Hr|]. split; [exact Hc|]. reflexivity. }
  induction 1 as [i d|w i d _ IH|m w w' b _ IH E|m w w' b _ IH E
                  |g w w' b _ IH E|f w w' b _ IH E
                  |q p w w' v _ IH E|q k w w' v _ IH E|q r w w' v _ IH E].
  - now left.
  - exact IH.
  - exact (R _ _ _ _ IH E).
  - rewrite SetMatrixData_SetRawData in E. exact (R _ _ _ _ IH E).
  - destruct (SetGeometry_cases g w) as [(_ & E0)|(_ & E0)]; rewrite E0 in E.
    + exact (R _ _ _ _ IH E).
    + injection E as _ <-. exact IH.
  - unfold SetFeature in E. rewrite SetMatrixData_SetRawData in E.
    exact (R _ _ _ _ IH E).
  - destruct (Search_inv _ _ _ _ _ E) as [(_ & ->)|(_ & Ht & _)];
      [exact IH|now rewrite Ht].
  - destruct (SearchKNN_inv _ _ _ _ _ E) as [(_ & ->)|(_ & _ & h & _ & ->)];
      exact IH.
  - destruct (SearchRadius_inv _ _ _ _ _ E) as [(_ & ->)|(_ & h & _ & ->)];
      exact IH.
Qed.

(** X9. In every reachable world, a search that does not return -1 has run
    the external index on the handle of the index object, and that handle
    is an index that was made for a non-zero dimension and then filled, by
    [add], with a non-zero number of vectors from the current store: the
    adapter never searches a null handle or an index it has made but not
    filled. *)
Theorem searches_run_on_built_index
        (q : MatrixXd) (p : KDTreeSearchParam) (k : Z) (r : float)
        (w w' : World) (v : Z) :
  reachable w ->
  Search q p w = Returns v w' \/
  SearchKNN q k w = Returns v w' \/
  SearchRadius q r w = Returns v w' ->
  v <> -1 ->
  exists d n h,
    d <> 0 /\ n <> 0 /\
    h = IndexFlatL2_add (IndexFlatL2_new d) n (data_ (this w)) /\
    index (this w) = Some h /\
    (w' = world_searched h q v w \/
     (v = 1 /\
      (w' = world_ranged h q r w \/
       w' = world_ranged h q (double_to_float (radius_ p)) w))).
Proof.
  intros Hr H Hv.
  destruct (search_call_inv q p k r w w' v H) as [(H0 & _)|(_ & h & Hh & Hw)];
    [contradiction|].
  destruct (reachable_handle_built w Hr) as [Hn|(d & n & Hd & Hn & Hi)];
    [rewrite Hn in Hh; discriminate Hh|].
  exists d, n, h.
  split; [exact Hd|]. split; [exact Hn|].
  split; [rewrite Hi in Hh; now injection Hh as <-|].
  split; [exact Hh|exact Hw].
Qed.

(** *** Geometry *)

(** X10. For a point cloud or mesh with at least one position (and few
    enough to fit the address space), [SetGeometry] returns true and leaves
    a 3-dimensional index with one vector per position: [dimension_] is 3,
    [dataset_size_] the number of positions, and the store holds three
    floats per position, taken from the first half of the positions'
    memory. *)
Theorem SetGeometry_supported_builds (g : Geometry) (w : World) :
  supported_geometry (GetGeometryType g) = true ->
  positions g <> [] ->
  24 * Z.of_nat (length (positions g)) < 2 ^ 64 ->
  exists w',
    SetGeometry g w = Returns true w' /\
    dimension_ (this w') = 3 /\
    dataset_size_ (this w') = Z.of_nat (length (positions g)) /\
    Z.of_nat (length (data_ (this w'))) = 3 * Z.of_nat (length (positions g)) /\
    data_ (this w')
    = firstn (3 * length (positions g))
             (flat_map words_of_double (doubles_of_points (positions g))).
Proof.
  intros Hs Hne Hb.
  destruct (SetGeometry_cases g w) as [(_ & E0)|(Hf & _)];
    [|rewrite Hf in Hs; discriminate Hs].
  set (m := mkMatrix 3 (Z.of_nat (length (positions g)))
                     (doubles_of_points (positions g))) in *.
  assert (Hwf : wf_matrix m) by now apply wf_positions.
  assert (Hc : 0 < cols m).
  { unfold m. cbn [cols]. destruct (positions g); [now contradiction Hne|].
    cbn [length]. lia. }
  destruct (SetRawData_stores_words m w Hwf) as (Hrun & Hst & _ & Hd);
    [reflexivity|exact Hc|].
  destruct (wf_matrix_sizes m Hwf) as (_ & Ec & _).
  exists (world_built m w).
  split; [rewrite E0; exact Hrun|]. split; [exact Hd|]. split; [exact Ec|].
  split.
  - unfold world_built. cbn [this data_]. now rewrite (length_ingested m).
  - rewrite Hst. f_equal. unfold m. cbn [rows cols]. lia.
Qed.

Lemma unbuilt_searches_fail (w : World) :
  data_ (this w) = [] -> all_searches_fail w.
Proof.
  intros Hd q p k r Hq.
  assert (K : forall k', SearchKNN q k' w = Returns (-1) w)
    by (intros k'; apply SearchKNN_rejects; [exact Hq|now left]).
  assert (R : forall r', SearchRadius q r' w = Returns (-1) w)
    by (intros r'; apply SearchRadius_rejects; [exact Hq|now left]).
  split; [|split; [apply K|apply R]].
  unfold Search. destruct (GetSearchType p); [apply K|apply R| |]; reflexivity.
Qed.

Lemma wf_matrix_3xnone : wf_matrix (mkMatrix 3 0 []).
Proof. unfold wf_matrix. cbn. lia. Qed.

(** X11. For a point cloud or mesh without positions, [SetGeometry] returns
    false with the no-data warning, but unlike an unsupported geometry it
    does change the index: [dimension_] becomes 3 and [dataset_size_] 0,
    and every later search returns -1, also on an index that was built
    before. *)
Theorem SetGeometry_empty_unbuilds (g : Geometry) (w : World) :
  supported_geometry (GetGeometryType g) = true ->
  positions g = [] ->
  exists w',
    SetGeometry g w = Returns false w' /\
    dimension_ (this w') = 3 /\ dataset_size_ (this w') = 0 /\
    log w' = log w ++ [Warning no_data_warning] /\
    all_searches_fail w'.
Proof.
  intros Hs He.
  destruct (SetGeometry_cases g w) as [(_ & E0)|(Hf & _)];
    [|rewrite Hf in Hs; discriminate Hs].
  rewrite He in E0. cbn [length doubles_of_points flat_map Z.of_nat] in E0.
  exists (world_no_data (mkMatrix 3 0 []) w).
  split; [rewrite E0; apply SetRawData_no_data; now right|].
  split; [reflexivity|]. split; [reflexivity|]. split; [reflexivity|].
  intros q p k r Hq.
  apply no_data_searches_fail;
    [exact wf_matrix_3xnone|now right|exact Hq|now left].
Qed.

(** *** Construction *)

Lemma ctor_matrix_run (m : MatrixXd) (w : World) :
  KnnFaiss_ctor_matrix m w
  = match SetRawData m (mkWorld KnnFaiss_default (indices w) (distance2 w)
                                (log w)) with
    | Returns _ w' => Returns tt w'
    | Undefined => Undefined
    end.
Proof.
  unfold KnnFaiss_ctor_matrix, KnnFaiss_ctor, put_this, bind, ret.
  now rewrite SetMatrixData_SetRawData.
Qed.

Lemma ctor_geometry_run (g : Geometry) (w : World) :
  KnnFaiss_ctor_geometry g w
  = match SetGeometry g (mkWorld KnnFaiss_default (indices w) (distance2 w)
                                 (log w)) with
    | Returns _ w' => Returns tt w'
    | Undefined => Undefined
    end.
Proof. reflexivity. Qed.

(** X12. The constructors drop the result of the ingestion they run.  The
    default constructor, the constructor from a matrix or a feature with 0
    rows or 0 columns, and the constructor from a geometry that is
    unsupported or has no positions all return an index on which every
    search returns -1. *)
Theorem constructed_from_nothing_rejects_searches (w : World) :
  (exists w', KnnFaiss_ctor w = Returns tt w' /\ all_searches_fail w') /\
  (forall m, rows m = 0 \/ cols m = 0 ->
     exists w', KnnFaiss_ctor_matrix m w = Returns tt w' /\
                all_searches_fail w') /\
  (forall g, supported_geometry (GetGeometryType g) = false \/
             positions g = [] ->
     exists w', KnnFaiss_ctor_geometry g w = Returns tt w' /\
                all_searches_fail w') /\
  (forall f, rows (feature_data_ f) = 0 \/ cols (feature_data_ f) = 0 ->
     exists w', KnnFaiss_ctor_feature f w = Returns tt w' /\
                all_searches_fail w').
Proof.
  set (w0 := mkWorld (@KnnFaiss_default IndexFlatL2)
                     (indices w) (distance2 w) (log w)).
  assert (R : forall m, rows m = 0 \/ cols m = 0 ->
    exists w', KnnFaiss_ctor_matrix m w = Returns tt w' /\
               all_searches_fail w').
  { intros m Hz. exists (world_no_data m w0). rewrite ctor_matrix_run.
    fold w0. rewrite SetRawData_no_data.
    - split; [reflexivity|]. now apply unbuilt_searches_fail.
    - destruct Hz as [-> | ->]; [left|right]; reflexivity. }
  split; [|split; [exact R|split]].
  - exists w0. split; [reflexivity|]. now apply unbuilt_searches_fail.
  - intros g Hg. rewrite ctor_geometry_run. fold w0.
    destruct (SetGeometry_cases g w0) as [(Hs & E0)|(_ & E0)]; rewrite E0.
    + destruct Hg as [Hf|He]; [rewrite Hf in Hs; discriminate Hs|].
      rewrite He. cbn [length doubles_of_points flat_map Z.of_nat].
      rewrite SetRawData_no_data by (now right).
      eexists. split; [reflexivity|]. now apply unbuilt_searches_fail.
    + eexists. split; [reflexivity|]. now apply unbuilt_searches_fail.
  - intros f Hz. exact (R (feature_data_ f) Hz).
Qed.

(** X13. Constructing an index from a well-formed matrix with at least one
    row and one column gives a built index, and the same index object as
    ingesting that matrix into any existing index. *)
Theorem constructed_from_matrix_is_ingested (m : MatrixXd) (w0 w : World) :
  wf_matrix m -> 0 < rows m -> 0 < cols m ->
  exists w1 w2,
    KnnFaiss_ctor_matrix m w0 = Returns tt w1 /\
    built (this w1) /\ dimension_ (this w1) = rows m /\
    SetMatrixData m w = Returns true w2 /\
    this w2 = this w1.
Proof.
  intros Hwf Hr Hc.
  set (wd := mkWorld (@KnnFaiss_default IndexFlatL2)
                     (indices w0) (distance2 w0) (log w0)).
  destruct (SetRawData_stores_words m wd Hwf Hr Hc) as (Hrun1 & _ & Hb & Hd).
  destruct (SetRawData_stores_words m w Hwf Hr Hc) as (Hrun2 & _).
  exists (world_built m wd), (world_built m w).
  split; [rewrite ctor_matrix_run; fold wd; now rewrite Hrun1|].
  split; [exact Hb|]. split; [exact Hd|].
  split; [rewrite SetMatrixData_SetRawData; exact Hrun2|].
  unfold world_built. cbn [this].
  now rewrite (ingested_words m (data_ (this w))),
              (ingested_words m (data_ (this wd))).
Qed.

End Coverage.

(** ** Concrete runs of the further properties *)

Lemma reachable_World_twins : reachable World_twins.
Proof.
  destruct World_twins_built as (Hrun & _).
  exact (reach_SetRawData twin_matrix World_presized World_twins true
           (reach_default [0] [0]) Hrun).
Qed.

Lemma wf_half_matrix : wf_matrix (mkMatrix 1 2 [0; one]).
Proof. unfold wf_matrix. cbn. lia. Qed.

(** X1 on the twin matrix. *)
Lemma ingest_stores_source_words_witness :
  wf_matrix twin_matrix /\ 0 < rows twin_matrix /\ 0 < cols twin_matrix /\
  exists w',
    SetRawData twin_matrix World_presized = Returns true w' /\
    dimension_ (this w') = rows twin_matrix /\
    dataset_size_ (this w') = cols twin_matrix /\
    Z.of_nat (length (data_ (this w'))) = rows twin_matrix * cols twin_matrix /\
    data_ (this w')
    = firstn (Z.to_nat (rows twin_matrix * cols twin_matrix))
             (flat_map words_of_double (data twin_matrix)).
Proof.
  split; [exact wf_twin_matrix|]. split; [reflexivity|]. split; [reflexivity|].
  apply (ingest_stores_source_words twin_matrix World_presized wf_twin_matrix);
    reflexivity.
Defined.

(** X2 on the 1x2 matrices (0.0, 0.0) and (0.0, 1.0), which differ in their
    second coefficient only. *)
Lemma ingest_reads_first_half_only_witness :
  wf_matrix twin_matrix /\ wf_matrix (mkMatrix 1 2 [0; one]) /\
  rows twin_matrix = 1 /\ cols twin_matrix = 2 /\
  rows twin_matrix * cols twin_matrix <= 2 * Z.of_nat 1 /\
  firstn 1 (data twin_matrix) = firstn 1 [0; one] /\
  exists w1 w2,
    SetRawData twin_matrix World_presized = Returns true w1 /\
    SetRawData (mkMatrix 1 2 [0; one]) World_presized = Returns true w2 /\
    this w1 = this w2.
Proof.
  split; [exact wf_twin_matrix|]. split; [exact wf_half_matrix|].
  split; [reflexivity|]. split; [reflexivity|].
  split; [cbn; lia|]. split; [reflexivity|].
  apply (ingest_reads_first_half_only twin_matrix (mkMatrix 1 2 [0; one]) 1
           World_presized wf_twin_matrix wf_half_matrix);
    first [reflexivity | cbn; lia].
Defined.

(** X3 on the twin matrix, ingested into a fresh index and into the unit
    index. *)
Lemma ingest_forgets_previous_build_witness :
  wf_matrix twin_matrix /\ 0 < rows twin_matrix /\ 0 < cols twin_matrix /\
  exists w1' w2',
    SetRawData twin_matrix World_presized = Returns true w1' /\
    SetRawData twin_matrix World_unit = Returns true w2' /\
    this w1' = this w2'.
Proof.
  split; [exact wf_twin_matrix|]. split; [reflexivity|]. split; [reflexivity|].
  apply (ingest_forgets_previous_build twin_matrix World_presized World_unit
           wf_twin_matrix);
    reflexivity.
Defined.

(** X4 on the 3x0 matrix ingested into the unit index. *)
Lemma failed_ingestion_keeps_store_witness :
  SetRawData matrix_3x0 World_unit
  = Returns false (world_no_data matrix_3x0 World_unit) /\
  data_ (this (world_no_data matrix_3x0 World_unit)) = data_ (this World_unit) /\
  index (this (world_no_data matrix_3x0 World_unit)) = index (this World_unit) /\
  indices (world_no_data matrix_3x0 World_unit) = indices World_unit /\
  distance2 (world_no_data matrix_3x0 World_unit) = distance2 World_unit /\
  exists msg,
    log (world_no_data matrix_3x0 World_unit)
    = log World_unit ++ [Warning msg].
Proof.
  assert (E : SetRawData matrix_3x0 World_unit
              = Returns false (world_no_data matrix_3x0 World_unit))
    by (apply SetRawData_no_data; right; reflexivity).
  split; [exact E|].
  apply (failed_ingestion_keeps_store World_unit
           (world_no_data matrix_3x0 World_unit)).
  left. exists matrix_3x0. exact E.
Defined.

(** X5 on the twin matrix ingested into a fresh index. *)
Lemma successful_ingestion_rebuilds_handle_witness :
  SetRawData twin_matrix World_presized = Returns true World_twins /\
  dimension_ (this World_twins) <> 0 /\ dataset_size_ (this World_twins) <> 0 /\
  index (this World_twins)
  = Some (IndexFlatL2_add (IndexFlatL2_new (dimension_ (this World_twins)))
                          (dataset_size_ (this World_twins))
                          (data_ (this World_twins))) /\
  indices World_twins = indices (@World_presized Reference.Flat) /\
  distance2 World_twins = distance2 (@World_presized Reference.Flat) /\
  log World_twins
  = log (@World_presized Reference.Flat) ++ [FaissNew (dimension_ (this World_twins));
                           FaissAdd (dataset_size_ (this World_twins))
                                    (data_ (this World_twins))].
Proof.
  destruct World_twins_built as (E & _).
  split; [exact E|].
  apply (successful_ingestion_rebuilds_handle World_presized World_twins).
  left. exists twin_matrix. exact E.
Defined.

(** X6 on a 2-nearest search of the twin index, which returns 2 and
    replaces the marks in the caller's vectors by the two neighbours. *)
Lemma search_value_tells_call_witness :
  SearchKNN zero_query 2 World_twins_marked
  = Returns 2 (mkWorld (this World_twins) [0; 1] [0; 0]
                       (log World_twins ++ [FaissSearch 1 [0] 2])) /\
  ((2 = -1 /\
    mkWorld (this World_twins) [0; 1] [0; 0]
            (log World_twins ++ [FaissSearch 1 [0] 2])
    = World_twins_marked) \/
   (0 <= 2 /\
    exists h, index (this World_twins_marked) = Some h /\
      (mkWorld (this World_twins) [0; 1] [0; 0]
               (log World_twins ++ [FaissSearch 1 [0] 2])
       = world_searched h zero_query 2 World_twins_marked \/
       (2 = 1 /\
        (mkWorld (this World_twins) [0; 1] [0; 0]
                 (log World_twins ++ [FaissSearch 1 [0] 2])
         = world_ranged h zero_query onef World_twins_marked \/
         mkWorld (this World_twins) [0; 1] [0; 0]
                 (log World_twins ++ [FaissSearch 1 [0] 2])
         = world_ranged h zero_query
                        (double_to_float (radius_ (mkParam Knn 2 one)))
                        World_twins_marked))))).
Proof.
  split; [exact twins_knn2_run|].
  apply (search_value_tells_call zero_query (mkParam Knn 2 one) 2 onef
           World_twins_marked _ 2).
  right. left. exact twins_knn2_run.
Defined.

(** X7 on the twin index. *)
Lemma reachable_store_and_handle_agree_witness :
  reachable World_twins /\
  handle_ok (this World_twins) /\ paired (this World_twins).
Proof.
  split; [exact reachable_World_twins|].
  apply (reachable_store_and_handle_agree World_twins reachable_World_twins).
Defined.

Lemma reachable_World_twins_marked : reachable World_twins_marked.
Proof.
  exact (reach_buffers World_twins [7; 7] [onef; onef] reachable_World_twins).
Qed.

(** X9 on a 2-nearest search of the twin index. *)
Lemma searches_run_on_built_index_witness :
  reachable World_twins_marked /\
  SearchKNN zero_query 2 World_twins_marked
  = Returns 2 (mkWorld (this World_twins) [0; 1] [0; 0]
                       (log World_twins ++ [FaissSearch 1 [0] 2])) /\
  2 <> -1 /\
  exists d n h,
    d <> 0 /\ n <> 0 /\
    h = IndexFlatL2_add (IndexFlatL2_new d) n (data_ (this World_twins_marked)) /\
    index (this World_twins_marked) = Some h /\
    (mkWorld (this World_twins) [0; 1] [0; 0]
             (log World_twins ++ [FaissSearch 1 [0] 2])
     = world_searched h zero_query 2 World_twins_marked \/
     (2 = 1 /\
      (mkWorld (this World_twins) [0; 1] [0; 0]
               (log World_twins ++ [FaissSearch 1 [0] 2])
       = world_ranged h zero_query onef World_twins_marked \/
       mkWorld (this World_twins) [0; 1] [0; 0]
               (log World_twins ++ [FaissSearch 1 [0] 2])
       = world_ranged h zero_query
                      (double_to_float (radius_ (mkParam Knn 2 one)))
                      World_twins_marked))).
Proof.
  assert (Hv : 2 <> -1) by discriminate.
  split; [exact reachable_World_twins_marked|].
  split; [exact twins_knn2_run|]. split; [exact Hv|].
  apply (searches_run_on_built_index zero_query (mkParam Knn 2 one) 2 onef
           World_twins_marked _ 2 reachable_World_twins_marked);
    [right; left; exact twins_knn2_run|exact Hv].
Defined.

(** X10 on the point cloud of two points. *)
Lemma SetGeometry_supported_builds_witness :
  supported_geometry (GetGeometryType two_points) = true /\
  positions two_points <> [] /\
  24 * Z.of_nat (length (positions two_points)) < 2 ^ 64 /\
  exists w',
    SetGeometry two_points World_presized = Returns true w' /\
    dimension_ (this w') = 3 /\
    dataset_size_ (this w') = Z.of_nat (length (positions two_points)) /\
    Z.of_nat (length (data_ (this w')))
    = 3 * Z.of_nat (length (positions two_points)) /\
    data_ (this w')
    = firstn (3 * length (positions two_points))
             (flat_map words_of_double
                       (doubles_of_points (positions two_points))).
Proof.
  assert (Hne : positions two_points <> []) by discriminate.
  assert (Hb : 24 * Z.of_nat (length (positions two_points)) < 2 ^ 64)
    by reflexivity.
  split; [reflexivity|]. split; [exact Hne|]. split; [exact Hb|].
  apply (SetGeometry_supported_builds two_points World_presized);
    [reflexivity|exact Hne|exact Hb].
Defined.

(** X11 on an empty triangle mesh handed to the twin index. *)
Lemma SetGeometry_empty_unbuilds_witness :
  supported_geometry (GetGeometryType empty_mesh) = true /\
  positions empty_mesh = [] /\
  exists w',
    SetGeometry empty_mesh World_twins = Returns false w' /\
    dimension_ (this w') = 3 /\ dataset_size_ (this w') = 0 /\
    log w' = log World_twins ++ [Warning no_data_warning] /\
    all_searches_fail w'.
Proof.
  split; [reflexivity|]. split; [reflexivity|].
  apply (SetGeometry_empty_unbuilds empty_mesh World_twins); reflexivity.
Defined.

(** X12 on a 3x0 matrix and on an image. *)
Lemma constructed_from_nothing_rejects_searches_witness :
  (exists w', KnnFaiss_ctor_matrix matrix_3x0 World_twins = Returns tt w' /\
              all_searches_fail w') /\
  (exists w', KnnFaiss_ctor_geometry an_image World_twins = Returns tt w' /\
              all_searches_fail w').
Proof.
  destruct (constructed_from_nothing_rejects_searches World_twins)
    as (_ & Hm & Hg & _).
  split.
  - apply (Hm matrix_3x0). right. reflexivity.
  - apply (Hg an_image). left. reflexivity.
Defined.

(** X13 on the twin matrix. *)
Lemma constructed_from_matrix_is_ingested_witness :
  wf_matrix twin_matrix /\ 0 < rows twin_matrix /\ 0 < cols twin_matrix /\
  exists w1 w2,
    KnnFaiss_ctor_matrix twin_matrix World_unit = Returns tt w1 /\
    built (this w1) /\ dimension_ (this w1) = rows twin_matrix /\
    SetMatrixData twin_matrix World_presized = Returns true w2 /\
    this w2 = this w1.
Proof.
  split; [exact wf_twin_matrix|]. split; [reflexivity|]. split; [reflexivity|].
  apply (constructed_from_matrix_is_ingested twin_matrix World_unit
           World_presized wf_twin_matrix);
    reflexivity.
Defined.
